(** * pytestflow: configuration lookup, WebDriver factory and assertion helpers

  A shallow embedding of

    - [pytestflow/test_config_data_loader.py]  (class [Config]),
    - [pytestflow/webdriver_factory.py]        (class [WebDriverFactory]),
    - [assertion.py]                           ([soft_assert], [hard_assert]),

  followed by the properties of the specification that concern them.

  Python values that come out of [json.load] are values of [json]; a Python
  [dict] is an association list in insertion order (the order in which
  [items()] yields the pairs).  Exceptions are values of [exn]; every
  operation that can raise runs in the monad [M], which threads the trace of
  calls made to the outside world (file system, driver managers, selenium)
  and stops at the first exception. *)

From Stdlib Require Import String Ascii List Bool ZArith Lia.
Import ListNotations.
Open Scope string_scope.

Set Warnings "-register-all".
Set Implicit Arguments.

(** ** Python values *)

Module Py.

(** What [json.load] returns.  [JNull] is Python's [None]. *)
Inductive json : Type :=
| JNull
| JBool (b : bool)
| JNum (n : Z)
| JStr (s : string)
| JList (l : list json)
| JObj (kvs : list (string * json)).

Definition None_ : json := JNull.

(** [type(v).__name__], as it appears in the text of an [AttributeError]
    or a [TypeError]. *)
Definition type_name (v : json) : string :=
  match v with
  | JNull => "NoneType"
  | JBool _ => "bool"
  | JNum _ => "int"
  | JStr _ => "str"
  | JList _ => "list"
  | JObj _ => "dict"
  end.

(** [bool(v)]. *)
Definition truthy (v : json) : bool :=
  match v with
  | JNull => false
  | JBool b => b
  | JNum n => negb (Z.eqb n 0)
  | JStr s => negb (String.eqb s "")
  | JList l => match l with [] => false | _ => true end
  | JObj kvs => match kvs with [] => false | _ => true end
  end.

(** Truth value of an argument declared [str | None]. *)
Definition truthy_str (o : option string) : bool :=
  match o with
  | None => false
  | Some s => negb (String.eqb s "")
  end.

(** [str(x)] for an argument declared [str | None], as an f-string
    formats it. *)
Definition str_of (o : option string) : string :=
  match o with
  | None => "None"
  | Some s => s
  end.

(** *** Dictionaries *)

Definition dict : Type := list (string * json).

(** [d[k]] when present. *)
Fixpoint lookup (k : string) (d : dict) : option json :=
  match d with
  | [] => None
  | (k', v) :: d' => if String.eqb k k' then Some v else lookup k d'
  end.

(** [d.get(k, default)]. *)
Definition dict_get (k : string) (default : json) (d : dict) : json :=
  match lookup k d with
  | Some v => v
  | None => default
  end.

(** [d[k] = v]: an existing key keeps its position, a new key goes last. *)
Fixpoint dict_set (k : string) (v : json) (d : dict) : dict :=
  match d with
  | [] => [(k, v)]
  | (k', v') :: d' =>
      if String.eqb k k' then (k, v) :: d' else (k', v') :: dict_set k v d'
  end.

(** [for k, v in items: d[k] = v]. *)
Definition set_all (items : dict) (d : dict) : dict :=
  fold_left (fun c kv => dict_set (fst kv) (snd kv) c) items d.

(** The one-character strings a [for] loop over a [str] yields. *)
Fixpoint chars (s : string) : list json :=
  match s with
  | EmptyString => []
  | String c s' => JStr (String c EmptyString) :: chars s'
  end.

(** *** Exceptions *)

Inductive exn_class : Type :=
| PyTestFlowException
| AttributeError
| TypeError
| ValueError
| AssertionError
| FileNotFoundError
| WebDriverException
| OtherException (name : string).

(** An exception instance: its class, [str(e)], and the [__cause__] that
    [raise ... from e] attaches. *)
Inductive exn : Type :=
| Exn (cls : exn_class) (message : string) (cause : option exn).

Definition exn_cls (e : exn) : exn_class := let (c, _, _) := e in c.
Definition exn_str (e : exn) : string := let (_, m, _) := e in m.
Definition exn_cause (e : exn) : option exn := let (_, _, c) := e in c.

(** [obj.attr] on an object that has no such attribute. *)
Definition no_attribute (v : json) (attr : string) : exn :=
  Exn AttributeError
      ("'" ++ type_name v ++ "' object has no attribute '" ++ attr ++ "'")
      None.

Definition not_iterable (v : json) : exn :=
  Exn TypeError ("'" ++ type_name v ++ "' object is not iterable") None.

(** [v.get(k, default)] on an arbitrary value: only a [dict] has [get]. *)
Definition method_get (v : json) (k : string) (default : json)
  : exn + json :=
  match v with
  | JObj d => inr (dict_get k default d)
  | _ => inl (no_attribute v "get")
  end.

(** [v.items()] on an arbitrary value. *)
Definition method_items (v : json) : exn + dict :=
  match v with
  | JObj d => inr d
  | _ => inl (no_attribute v "items")
  end.

(** [iter(v)]: what a [for] loop over [v] visits. *)
Definition iterate (v : json) : exn + list json :=
  match v with
  | JList l => inr l
  | JStr s => inr (chars s)
  | JObj d => inr (map (fun kv => JStr (fst kv)) d)
  | _ => inl (not_iterable v)
  end.

End Py.
Import Py.

(** ** pytestflow/pytest_flow_exceptions.py *)

(** [PyTestFlowException(message)], raised bare or [from] a cause. *)
Definition raise_PyTestFlowException (message : string) (cause : option exn)
  : exn :=
  Exn PyTestFlowException message cause.

(** ** The outside world and the monad of effects *)

Module Effects.

(** The options object of selenium ([ArgOptions] and its per-browser
    subclasses): the launch arguments added so far and the capabilities set
    so far. *)
Record Options : Type := mkOptions {
  options_class : string;
  arguments : list json;
  capabilities : dict
}.

(** A driver service object ([ChromeService(path)], ..., [SafariService()]). *)
Record Service : Type := mkService {
  service_class : string;
  executable_path : option string
}.

(** A session handle, described by the constructor call that made it. *)
Inductive WebDriver : Type :=
| Remote (command_executor : option string) (options : option Options)
| Local (browser : string) (options : option Options)
        (service : option Service).

(** Calls that leave the process. *)
Inductive event : Type :=
| Open (path : string)
| DriverManagerInstall (browser : string)
| NewService (browser : string)
| NewRemote (command_executor : option string) (options : option Options)
| NewLocal (browser : string) (options : option Options)
           (service : option Service)
| Quit (driver : WebDriver)
| LogFailure (msg : string).

(** What the outside world answers.  [None] in an [option exn] means that the
    call returned normally. *)
Record World : Type := mkWorld {
  platform_system : string;
  open_json_load : string -> exn + json;
  default_capabilities : string -> dict;
  driver_manager_install : string -> exn + string;
  remote_session : option string -> option Options -> option exn;
  local_session : string -> option Options -> option Service -> option exn;
  driver_quit : WebDriver -> option exn
}.

Definition trace : Type := list event.

Definition M (A : Type) : Type := World -> trace -> (exn + A) * trace.

Definition ret {A} (a : A) : M A := fun _ t => (inr a, t).

Definition raise {A} (e : exn) : M A := fun _ t => (inl e, t).

Definition bind {A B} (m : M A) (k : A -> M B) : M B :=
  fun w t =>
    match m w t with
    | (inl e, t') => (inl e, t')
    | (inr a, t') => k a w t'
    end.

(** [try: m  except Exception as e: handler e]. *)
Definition try_except {A} (m : M A) (handler : exn -> M A) : M A :=
  fun w t =>
    match m w t with
    | (inl e, t') => handler e w t'
    | (inr a, t') => (inr a, t')
    end.

Definition lift {A} (r : exn + A) : M A := fun _ t => (r, t).

Definition ask : M World := fun w t => (inr w, t).

Definition emit (e : event) : M unit := fun _ t => (inr tt, (t ++ [e])%list).

(** A call whose only possible failure is an exception. *)
Definition call (e : event) (outcome : World -> option exn) : M unit :=
  fun w t =>
    match outcome w with
    | Some x => (inl x, (t ++ [e])%list)
    | None => (inr tt, (t ++ [e])%list)
    end.

(** A call that returns a value. *)
Definition call_value {A} (e : event) (outcome : World -> exn + A) : M A :=
  fun w t => (outcome w, (t ++ [e])%list).

(** [for x in xs: body x], threading the object the body mutates. *)
Fixpoint for_in {A S} (xs : list A) (body : A -> S -> M S) (s : S) : M S :=
  match xs with
  | [] => ret s
  | x :: xs' => bind (body x s) (for_in xs' body)
  end.

(** Calls that create a session, and calls that set up a driver service. *)
Definition is_session (e : event) : bool :=
  match e with
  | NewRemote _ _ | NewLocal _ _ _ => true
  | _ => false
  end.

Definition is_service (e : event) : bool :=
  match e with
  | DriverManagerInstall _ | NewService _ => true
  | _ => false
  end.

Definition sessions (t : trace) : trace := filter is_session t.

Definition services (t : trace) : trace := filter is_service t.

Definition run {A} (m : M A) (w : World) : (exn + A) * trace := m w [].

Definition result {A} (m : M A) (w : World) : exn + A := fst (run m w).

Definition events {A} (m : M A) (w : World) : trace := snd (run m w).

(** A computation is framed when it only appends to the trace it is given
    and its outcome does not depend on that trace. *)
Definition framed {A} (m : M A) : Prop :=
  forall w t, m w t = (fst (m w []), (t ++ snd (m w []))%list).

End Effects.
Import Effects.

Declare Scope py_scope.
Delimit Scope py_scope with py.
Notation "x <- m ;; k" := (bind m (fun x => k))
  (at level 61, m at next level, right associativity) : py_scope.
Notation "m ;;; k" := (bind m (fun _ => k))
  (at level 61, right associativity) : py_scope.
Open Scope py_scope.

(** ** pytestflow/test_config_data_loader.py *)

Module Config.

Record t : Type := mk {
  __test_config_path : string;
  __config_data : json
}.

Definition is_FileNotFoundError (e : exn) : bool :=
  match exn_cls e with
  | FileNotFoundError => true
  | _ => false
  end.

Definition __load_test_config_data (self : t) : M t :=
  try_except
    (data <- call_value (Open (__test_config_path self))
                        (fun w => open_json_load w (__test_config_path self)) ;;
     ret (mk (__test_config_path self) data))
    (fun e =>
       if is_FileNotFoundError e then
         raise (raise_PyTestFlowException
                  ("Test config data file path not found. Please verify the correct path location."
                   ++ "Path provided is: " ++ __test_config_path self)
                  (Some e))
       else
         raise (raise_PyTestFlowException
                  ("Error in opening test config data file. Original Error: "
                   ++ exn_str e)
                  (Some e))).

Definition __init__ (test_config_path : option string) : M t :=
  let path := if truthy_str test_config_path
              then str_of test_config_path
              else "test_environment.json" in
  __load_test_config_data (mk path (JObj [])).

Definition get_config_data (self : t) (browser device : option string)
  : M json :=
  if truthy_str browser then
    browsers <- lift (method_get (__config_data self) "browsers" None_) ;;
    lift (method_get browsers (str_of browser) (JObj []))
  else if truthy_str device then
    devices <- lift (method_get (__config_data self) "devices" None_) ;;
    lift (method_get devices (str_of device) (JObj []))
  else
    ret None_.

End Config.

(** ** pytestflow/webdriver_factory.py *)

Module WebDriverFactory.

Definition __SUPPORTED_BROWSERS : list string :=
  ["chrome"; "edge"; "firefox"; "safari"].

Record t : Type := mk {
  __browser : option string;
  __remote : bool;
  __grid_url : option string;
  __driver : option WebDriver;
  __service : option Service;
  __config_data : json
}.

Definition set_driver (self : t) (d : option WebDriver) : t :=
  mk (__browser self) (__remote self) (__grid_url self) d
     (__service self) (__config_data self).

Definition set_service (self : t) (s : option Service) : t :=
  mk (__browser self) (__remote self) (__grid_url self) (__driver self)
     s (__config_data self).

Definition set_config_data (self : t) (c : json) : t :=
  mk (__browser self) (__remote self) (__grid_url self) (__driver self)
     (__service self) c.

(** [x == name] for [x : str | None]. *)
Definition str_eq (x : option string) (name : string) : bool :=
  match x with
  | Some s => String.eqb s name
  | None => false
  end.

(** [x in names]. *)
Definition str_in (x : option string) (names : list string) : bool :=
  existsb (str_eq x) names.

Definition unsupported_platform (browser : option string) : exn :=
  raise_PyTestFlowException
    (str_of browser ++ " is not supported on Windows.") None.

Definition unsupported_browser (browser : option string) : exn :=
  raise_PyTestFlowException
    ("Unsupported Browser: " ++ str_of browser ++ ". "
     ++ "Supported browsers are " ++ String.concat "," __SUPPORTED_BROWSERS)
    None.

Definition __check_platform_compatibility (self : t) : M unit :=
  w <- ask ;;
  if String.eqb (platform_system w) "Windows" && str_eq (__browser self) "safari"
  then raise (unsupported_platform (__browser self))
  else ret tt.

Definition __check_browser_availability (self : t) : M unit :=
  if negb (str_in (__browser self) __SUPPORTED_BROWSERS)
  then raise (unsupported_browser (__browser self))
  else ret tt.

(** [XService(XDriverManager().install())]. *)
Definition managed_service (browser : string) : M Service :=
  path <- call_value (DriverManagerInstall browser)
                     (fun w => driver_manager_install w browser) ;;
  emit (NewService browser) ;;;
  ret (mkService browser (Some path)).

Definition __init_service (self : t) : M t :=
  try_except
    (if str_eq (__browser self) "chrome" then
       s <- managed_service "chrome" ;; ret (set_service self (Some s))
     else if str_eq (__browser self) "firefox" then
       s <- managed_service "firefox" ;; ret (set_service self (Some s))
     else if str_eq (__browser self) "edge" then
       s <- managed_service "edge" ;; ret (set_service self (Some s))
     else if str_eq (__browser self) "safari" then
       emit (NewService "safari") ;;;
       ret (set_service self (Some (mkService "safari" None)))
     else ret self)
    (fun e =>
       raise (raise_PyTestFlowException
                ("An Error encountered while initializing service for "
                 ++ str_of (__browser self) ++ " browser."
                 ++ "Original Exception is: " ++ exn_str e)
                (Some e))).

(** [options.add_argument(arg)] of selenium's [ArgOptions]; [options] may be
    [None]. *)
Definition add_argument (arg : json) (options : option Options)
  : M (option Options) :=
  match options with
  | None => raise (no_attribute None_ "add_argument")
  | Some o =>
      if truthy arg
      then ret (Some (mkOptions (options_class o)
                                (arguments o ++ [arg])%list
                                (capabilities o)))
      else raise (Exn ValueError "argument can not be null" None)
  end.

(** [options.set_capability(key, value)] of selenium's [BaseOptions]. *)
Definition set_capability (kv : string * json) (options : option Options)
  : M (option Options) :=
  match options with
  | None => raise (no_attribute None_ "set_capability")
  | Some o =>
      ret (Some (mkOptions (options_class o)
                           (arguments o)
                           (dict_set (fst kv) (snd kv) (capabilities o))))
  end.

(** [XOptions()]. *)
Definition new_options (w : World) (browser : string) : Options :=
  mkOptions browser [] (default_capabilities w browser).

Definition __get_options (self : t) : M (option Options) :=
  args <- lift (method_get (__config_data self) "args" (JList [])) ;;
  w <- ask ;;
  let options :=
    if str_eq (__browser self) "chrome" then Some (new_options w "chrome")
    else if str_eq (__browser self) "firefox" then Some (new_options w "firefox")
    else if str_eq (__browser self) "edge" then Some (new_options w "edge")
    else if str_eq (__browser self) "safari" then Some (new_options w "safari")
    else None in
  args_iter <- lift (iterate args) ;;
  options <- for_in args_iter add_argument options ;;
  items <- lift (method_items (__config_data self)) ;;
  options <- for_in items set_capability options ;;
  ret options.

Definition is_WebDriverException (e : exn) : bool :=
  match exn_cls e with
  | WebDriverException => true
  | _ => false
  end.

Definition __create_remote_driver (self : t) : M (t * option WebDriver) :=
  options <- __get_options self ;;
  self <- __init_service self ;;
  self <- try_except
            (call (NewRemote (__grid_url self) options)
                  (fun w => remote_session w (__grid_url self) options) ;;;
             ret (set_driver self (Some (Remote (__grid_url self) options))))
            (fun e =>
               if is_WebDriverException e then
                 raise (raise_PyTestFlowException
                          ("WebDriverException Encountered while creating remote webdriver for "
                           ++ str_of (__browser self) ++ " Original Error: "
                           ++ exn_str e)
                          (Some e))
               else
                 raise (raise_PyTestFlowException
                          ("An Exception is encountered while creating remote webdriver for "
                           ++ str_of (__browser self)
                           ++ "Original Error: " ++ exn_str e)
                          (Some e))) ;;
  ret (self, __driver self).

(** [webdriver.X(options=options, service=self.__service)]. *)
Definition local_webdriver (self : t) (browser : string)
           (options : option Options) : M t :=
  call (NewLocal browser options (__service self))
       (fun w => local_session w browser options (__service self)) ;;;
  ret (set_driver self (Some (Local browser options (__service self)))).

Definition __create_local_driver (self : t) : M (t * option WebDriver) :=
  options <- __get_options self ;;
  self <- __init_service self ;;
  self <- (if str_eq (__browser self) "chrome" then
             local_webdriver self "chrome" options
           else if str_eq (__browser self) "edge" then
             local_webdriver self "edge" options
           else if str_eq (__browser self) "firefox" then
             local_webdriver self "firefox" options
           else if str_eq (__browser self) "safari" then
             local_webdriver self "safari" options
           else ret self) ;;
  ret (self, __driver self).

Definition __set_webdriver (self : t) : M t :=
  r <- (if __remote self && truthy_str (__grid_url self)
        then __create_remote_driver self
        else __create_local_driver self) ;;
  ret (set_driver (fst r) (snd r)).

(** Resolution of the configuration in the constructor: the [if
    test_config_path:] statement. *)
Definition resolve_config (self : t) (test_config_path : option string)
  : M t :=
  if truthy_str test_config_path then
    cfg <- Config.__init__ test_config_path ;;
    data <- Config.get_config_data cfg (__browser self) None ;;
    ret (set_config_data self data)
  else ret self.

Definition __init__ (browser : option string) (remote : bool)
           (grid_url : option string) (test_config_path : option string)
  : M t :=
  let self := mk browser remote grid_url None None (JObj []) in
  self <- resolve_config self test_config_path ;;
  __check_platform_compatibility self ;;;
  __check_browser_availability self ;;;
  __set_webdriver self.

Definition get_webdriver (self : t) : option WebDriver := __driver self.

(** What [quit_webdriver] raises [from e]. *)
Definition closing_error (e : exn) : exn :=
  raise_PyTestFlowException
    ("Error in closing WebDriver. Original Error: " ++ exn_str e) (Some e).

Definition quit_webdriver (self : t) : M unit :=
  try_except
    (match __driver self with
     | None => raise (no_attribute None_ "quit")
     | Some d => call (Quit d) (fun w => driver_quit w d)
     end)
    (fun e => raise (closing_error e)).

Definition __exit__ (self : t) : M unit :=
  match __driver self with
  | Some _ => quit_webdriver self
  | None => ret tt
  end.

End WebDriverFactory.

(** ** assertion.py *)

Module Assertion.

(** [check.is_true(x, msg)] of pytest-check: a false [x] is logged as a
    failure with [msg] and the call returns; nothing is raised. *)
Definition check_is_true (x : bool) (msg : string) : M bool :=
  if x then ret true else (emit (LogFailure msg) ;;; ret false).

Definition soft_assert (condition : bool) (msg : string) : M unit :=
  check_is_true condition msg ;;; ret tt.

(** [assert condition, msg]. *)
Definition hard_assert (condition : bool) (msg : string) : M unit :=
  if condition then ret tt else raise (Exn AssertionError msg None).

End Assertion.

(** ** Concrete worlds and documents used in the examples *)

Module Sample.

(** What [open] raises for a path that does not exist. *)
Definition file_not_found (path : string) : exn :=
  Exn FileNotFoundError
      ("[Errno 2] No such file or directory: '" ++ path ++ "'") None.

(** A host running [system] whose disk holds the JSON [files]; every driver
    download, session and shutdown succeeds, and option objects start with no
    capability. *)
Definition world (system : string) (files : dict) : World :=
  mkWorld system
          (fun path => match lookup path files with
                       | Some doc => inr doc
                       | None => inl (file_not_found path)
                       end)
          (fun _ => [])
          (fun browser => inr ("/wdm/" ++ browser))
          (fun _ _ => None)
          (fun _ _ _ => None)
          (fun _ => None).

(** [{"args": ["--headless", "--no-sandbox"], "pageLoadStrategy": "eager"}] *)
Definition headless_eager : dict :=
  [("args", JList [JStr "--headless"; JStr "--no-sandbox"]);
   ("pageLoadStrategy", JStr "eager")].

(** [{"browsers": {"chrome": {...}}, "devices": {"pixel": {"w": 412}}}] *)
Definition document_items : dict :=
  [("browsers", JObj [("chrome", JObj headless_eager)]);
   ("devices", JObj [("pixel", JObj [("w", JNum 412)])])].

Definition document : json := JObj document_items.

(** [{"browsers": {"": {"a": 1}}, "devices": {"pixel": {"b": 2}}}] *)
Definition unnamed_browser_document : json :=
  JObj [("browsers", JObj [("", JObj [("a", JNum 1)])]);
        ("devices", JObj [("pixel", JObj [("b", JNum 2)])])].

Definition linux : World := world "Linux" [("env.json", document)].

(** A host on which every shutdown request fails. *)
Definition invalid_session : exn :=
  Exn WebDriverException "Message: invalid session id" None.

Definition stuck : World :=
  mkWorld "Linux" (fun path => inl (file_not_found path)) (fun _ => [])
          (fun browser => inr ("/wdm/" ++ browser))
          (fun _ _ => None) (fun _ _ _ => None)
          (fun _ => Some invalid_session).

(** A factory as the constructor leaves it for [browser="chrome"], and one
    that holds no session handle. *)
Definition chrome_driver : WebDriver :=
  Local "chrome" (Some (mkOptions "chrome" [] []))
        (Some (mkService "chrome" (Some "/wdm/chrome"))).

Definition chrome_factory : WebDriverFactory.t :=
  WebDriverFactory.mk (Some "chrome") false None (Some chrome_driver)
                      (Some (mkService "chrome" (Some "/wdm/chrome")))
                      (JObj []).

Definition no_session_factory : WebDriverFactory.t :=
  WebDriverFactory.mk (Some "chrome") false None None None (JObj []).

Definition windows : World :=
  world "Windows" [("env.json", document); ("empty.json", JObj [])].

(** The capabilities selenium's option classes start with. *)
Definition w3c_defaults (browser : string) : dict :=
  [("browserName", JStr browser); ("pageLoadStrategy", JStr "normal")].

Definition files : dict := [("env.json", document)].

Definition read (path : string) : exn + json :=
  match lookup path files with
  | Some doc => inr doc
  | None => inl (file_not_found path)
  end.

(** A Linux host with selenium's default capabilities. *)
Definition selenium : World :=
  mkWorld "Linux" read w3c_defaults
          (fun browser => inr ("/wdm/" ++ browser))
          (fun _ _ => None) (fun _ _ _ => None) (fun _ => None).

(** A host on which the driver manager cannot download anything. *)
Definition download_failed : exn :=
  Exn (OtherException "ConnectionError")
      "Could not reach host. Are you offline?" None.

Definition offline : World :=
  mkWorld "Linux" read (fun _ => []) (fun _ => inl download_failed)
          (fun _ _ => None) (fun _ _ _ => None) (fun _ => None).

(** A host on which no session, remote or local, can be created. *)
Definition session_not_created : exn :=
  Exn WebDriverException "Message: session not created" None.

Definition sessionless : World :=
  mkWorld "Linux" read (fun _ => [])
          (fun browser => inr ("/wdm/" ++ browser))
          (fun _ _ => Some session_not_created)
          (fun _ _ _ => Some session_not_created) (fun _ => None).

(** A host whose configuration files are not valid JSON. *)
Definition not_json : exn :=
  Exn (OtherException "JSONDecodeError")
      "Expecting value: line 1 column 1 (char 0)" None.

Definition garbled : World :=
  mkWorld "Linux" (fun _ => inl not_json) (fun _ => [])
          (fun browser => inr ("/wdm/" ++ browser))
          (fun _ _ => None) (fun _ _ _ => None) (fun _ => None).

(** A factory for [browser] as the field initialisations leave it, with
    [config] as its configuration data. *)
Definition configured (browser : string) (config : json)
  : WebDriverFactory.t :=
  WebDriverFactory.mk (Some browser) false None None None config.

End Sample.

(** * Properties *)

(** ** The monad *)

Lemma truthy_str_Some (s : string) :
  s <> "" -> truthy_str (Some s) = true.
Proof.
  intros H. unfold truthy_str.
  destruct (String.eqb_spec s ""); [contradiction | reflexivity].
Qed.

(** ** ConfigStore lookup *)

Section GetConfigData.

Variable w : World.
Variable self : Config.t.
Variable d : dict.
Hypothesis loaded : Config.__config_data self = JObj d.

(** The lookup with a non-empty browser name, on a document whose
    [browsers] entry is the mapping [bs]. *)
Lemma get_browser_section bs b device :
  lookup "browsers" d = Some (JObj bs) ->
  b <> "" ->
  run (Config.get_config_data self (Some b) device) w
  = (inr (dict_get b (JObj []) bs), []).
Proof.
  intros Hbs Hb. unfold run, Config.get_config_data.
  rewrite (truthy_str_Some Hb), loaded.
  unfold bind, lift, method_get, dict_get. rewrite Hbs. reflexivity.
Qed.

(** The lookup with a non-empty browser name, on a document without a
    [browsers] entry. *)
Lemma get_browser_missing b device :
  lookup "browsers" d = None ->
  b <> "" ->
  run (Config.get_config_data self (Some b) device) w
  = (inl (no_attribute None_ "get"), []).
Proof.
  intros Hbs Hb. unfold run, Config.get_config_data.
  rewrite (truthy_str_Some Hb), loaded.
  unfold bind, lift, method_get, dict_get. rewrite Hbs. reflexivity.
Qed.

(** The lookup with a non-empty device name and no browser name, on a
    document without a [devices] entry. *)
Lemma get_device_missing browser dev :
  lookup "devices" d = None ->
  truthy_str browser = false ->
  dev <> "" ->
  run (Config.get_config_data self browser (Some dev)) w
  = (inl (no_attribute None_ "get"), []).
Proof.
  intros Hds Hb Hdev. unfold run, Config.get_config_data.
  rewrite Hb, (truthy_str_Some Hdev), loaded.
  unfold bind, lift, method_get, dict_get. rewrite Hds. reflexivity.
Qed.

End GetConfigData.

(** C5 (as amended).  On a loaded document whose [browsers] entry is a
    mapping, the lookup with a non-empty browser name [b] returns exactly
    [browsers[b]] when [b] is a key of it and the empty mapping otherwise,
    whatever the device argument. *)
Theorem get_config_data_browser w self d bs b device :
  Config.__config_data self = JObj d ->
  lookup "browsers" d = Some (JObj bs) ->
  b <> "" ->
  result (Config.get_config_data self (Some b) device) w
  = inr (match lookup b bs with
         | Some section => section
         | None => JObj []
         end).
Proof.
  intros Hd Hbs Hb. unfold result.
  rewrite (get_browser_section w self Hd device Hbs Hb). reflexivity.
Qed.

Lemma get_config_data_browser_witness :
  result (Config.get_config_data (Config.mk "env.json" Sample.document)
                                 (Some "chrome") None) Sample.linux
  = inr (JObj Sample.headless_eager)
  /\ result (Config.get_config_data (Config.mk "env.json" Sample.document)
                                    (Some "opera") None) Sample.linux
     = inr (JObj []).
Proof.
  split.
  - apply (@get_config_data_browser Sample.linux
             (Config.mk "env.json" Sample.document) Sample.document_items
             [("chrome", JObj Sample.headless_eager)] "chrome" None);
      [reflexivity | reflexivity | discriminate].
  - apply (@get_config_data_browser Sample.linux
             (Config.mk "env.json" Sample.document) Sample.document_items
             [("chrome", JObj Sample.headless_eager)] "opera" None);
      [reflexivity | reflexivity | discriminate].
Defined.

(** C5 as stated fails for the empty browser name: [""] is a key of
    [browsers] in the document, yet the lookup returns [None], and it also
    returns [None] rather than the empty mapping where [""] is not a key. *)
Lemma get_config_data_empty_browser_name :
  lookup "browsers" [("browsers", JObj [("", JObj [("a", JNum 1)])])]
  = Some (JObj [("", JObj [("a", JNum 1)])])
  /\ lookup "" [("", JObj [("a", JNum 1)])] = Some (JObj [("a", JNum 1)])
  /\ result (Config.get_config_data
               (Config.mk "env.json" Sample.unnamed_browser_document)
               (Some "") None) Sample.linux
     = inr None_
  /\ None_ <> JObj [("a", JNum 1)]
  /\ result (Config.get_config_data (Config.mk "env.json" Sample.document)
                                    (Some "") None) Sample.linux
     = inr None_
  /\ None_ <> JObj [].
Proof. repeat split; try reflexivity; discriminate. Qed.

(** C6 (as amended).  On a loaded document whose [browsers] entry is a
    mapping: when a non-empty browser name and a device name are both
    supplied the lookup returns the browser's section, and when neither is
    supplied it returns [None]. *)
Theorem get_config_data_browser_wins w self d bs b dev :
  Config.__config_data self = JObj d ->
  lookup "browsers" d = Some (JObj bs) ->
  b <> "" ->
  result (Config.get_config_data self (Some b) (Some dev)) w
  = inr (dict_get b (JObj []) bs)
  /\ result (Config.get_config_data self None None) w = inr None_.
Proof.
  intros Hd Hbs Hb. split.
  - unfold result. rewrite (get_browser_section w self Hd (Some dev) Hbs Hb).
    reflexivity.
  - reflexivity.
Qed.

Lemma get_config_data_browser_wins_witness :
  result (Config.get_config_data (Config.mk "env.json" Sample.document)
                                 (Some "chrome") (Some "pixel")) Sample.linux
  = inr (JObj Sample.headless_eager)
  /\ result (Config.get_config_data (Config.mk "env.json" Sample.document)
                                    None None) Sample.linux
     = inr None_.
Proof.
  apply (@get_config_data_browser_wins Sample.linux
           (Config.mk "env.json" Sample.document) Sample.document_items
           [("chrome", JObj Sample.headless_eager)] "chrome" "pixel");
    [reflexivity | reflexivity | discriminate].
Defined.

(** C6 as stated fails when the browser name supplied is empty: with both
    selectors supplied the lookup returns the device's section, which is not
    the section [browsers[""]] of the document. *)
Lemma get_config_data_device_wins_over_empty_browser :
  result (Config.get_config_data
            (Config.mk "env.json" Sample.unnamed_browser_document)
            (Some "") (Some "pixel")) Sample.linux
  = inr (JObj [("b", JNum 2)])
  /\ dict_get "" (JObj []) [("", JObj [("a", JNum 1)])] = JObj [("a", JNum 1)]
  /\ JObj [("b", JNum 2)] <> JObj [("a", JNum 1)].
Proof. repeat split; try reflexivity; discriminate. Qed.

(** C10 (as amended).  On a loaded document without a [browsers] key the
    lookup with a non-empty browser name raises [AttributeError] ([get] on
    [None]) and returns no mapping; on a document without a [devices] key so
    does the lookup with a non-empty device name and no browser name. *)
Theorem get_config_data_missing_section w self d b dev :
  Config.__config_data self = JObj d ->
  b <> "" ->
  dev <> "" ->
  (lookup "browsers" d = None ->
   forall device,
     result (Config.get_config_data self (Some b) device) w
     = inl (no_attribute None_ "get"))
  /\ (lookup "devices" d = None ->
      forall browser,
        truthy_str browser = false ->
        result (Config.get_config_data self browser (Some dev)) w
        = inl (no_attribute None_ "get")).
Proof.
  intros Hd Hb Hdev. split.
  - intros Hbs device. unfold result.
    rewrite (get_browser_missing w self Hd device Hbs Hb). reflexivity.
  - intros Hds browser Hbrowser. unfold result.
    rewrite (get_device_missing w self Hd browser Hds Hbrowser Hdev).
    reflexivity.
Qed.

Lemma get_config_data_missing_section_witness :
  result (Config.get_config_data (Config.mk "empty.json" (JObj []))
                                 (Some "chrome") None) Sample.windows
  = inl (Exn AttributeError "'NoneType' object has no attribute 'get'" None)
  /\ result (Config.get_config_data (Config.mk "empty.json" (JObj []))
                                    None (Some "pixel")) Sample.windows
     = inl (Exn AttributeError "'NoneType' object has no attribute 'get'" None).
Proof.
  destruct (@get_config_data_missing_section
              Sample.windows (Config.mk "empty.json" (JObj [])) []
              "chrome" "pixel" eq_refl
              ltac:(discriminate) ltac:(discriminate)) as [Hb Hd].
  split.
  - exact (Hb eq_refl None).
  - exact (Hd eq_refl None eq_refl).
Defined.

(** C10 as stated fails for the empty browser name (and the empty device
    name): on a document without either key the lookup raises nothing and
    returns [None]. *)
Lemma get_config_data_empty_name_does_not_raise :
  lookup "browsers" [] = None
  /\ result (Config.get_config_data (Config.mk "empty.json" (JObj []))
                                    (Some "") None) Sample.windows
     = inr None_
  /\ result (Config.get_config_data (Config.mk "empty.json" (JObj []))
                                    None (Some "")) Sample.windows
     = inr None_.
Proof. repeat split. Qed.

(** ** Session termination *)

(** C8.  [quit_webdriver] raises the termination error, with the underlying
    exception as its cause, whenever the shutdown call raises; on a factory
    that holds no session handle the underlying exception is the
    [AttributeError] of [None.quit], so the call raises and is not a no-op. *)
Theorem quit_webdriver_wraps_failure w self :
  (WebDriverFactory.__driver self = None ->
   run (WebDriverFactory.quit_webdriver self) w
   = (inl (WebDriverFactory.closing_error (no_attribute None_ "quit")), []))
  /\ (forall d e,
        WebDriverFactory.__driver self = Some d ->
        driver_quit w d = Some e ->
        run (WebDriverFactory.quit_webdriver self) w
        = (inl (WebDriverFactory.closing_error e), [Quit d])).
Proof.
  unfold run, WebDriverFactory.quit_webdriver, try_except. split.
  - intros ->. reflexivity.
  - intros d e -> Hquit. unfold call. rewrite Hquit. reflexivity.
Qed.

Lemma quit_webdriver_wraps_failure_witness :
  run (WebDriverFactory.quit_webdriver Sample.no_session_factory) Sample.linux
  = (inl (Exn PyTestFlowException
              "Error in closing WebDriver. Original Error: 'NoneType' object has no attribute 'quit'"
              (Some (Exn AttributeError
                         "'NoneType' object has no attribute 'quit'" None))),
     [])
  /\ run (WebDriverFactory.quit_webdriver Sample.chrome_factory) Sample.stuck
     = (inl (Exn PyTestFlowException
                 "Error in closing WebDriver. Original Error: Message: invalid session id"
                 (Some Sample.invalid_session)),
        [Quit Sample.chrome_driver]).
Proof.
  split.
  - exact (proj1 (quit_webdriver_wraps_failure
                    Sample.linux Sample.no_session_factory) eq_refl).
  - exact (proj2 (quit_webdriver_wraps_failure
                    Sample.stuck Sample.chrome_factory)
                 Sample.chrome_driver Sample.invalid_session eq_refl eq_refl).
Defined.

(** The shutdown call returning normally is the only way [quit_webdriver]
    returns. *)
Lemma quit_webdriver_returns w self :
  result (WebDriverFactory.quit_webdriver self) w = inr tt <->
  exists d, WebDriverFactory.__driver self = Some d /\ driver_quit w d = None.
Proof.
  unfold result, run, WebDriverFactory.quit_webdriver, try_except, call.
  destruct (WebDriverFactory.__driver self) as [d |]; simpl.
  - destruct (driver_quit w d) as [e |] eqn:Hq; simpl; split.
    + discriminate.
    + intros (d' & Hd & Hq'). injection Hd as <-. congruence.
    + intros _. exists d. split; [reflexivity | exact Hq].
    + reflexivity.
  - split; [discriminate | intros (d & Hd & _); discriminate].
Qed.

(** ** Assertion helpers *)

(** C9.  Followed by any rest [k] of the test step sequence: [hard_assert]
    raises [AssertionError] with the message, without running [k], exactly
    when the condition is false, and behaves as if absent when it is true;
    [soft_assert] logs a failure with the message and runs [k] exactly when
    the condition is false, and behaves as if absent when it is true. *)
Theorem assertions_hard_and_soft (condition : bool) (msg : string)
        (B : Type) (k : unit -> M B) (w : World) (t : trace) :
  bind (Assertion.hard_assert condition msg) k w t
  = (if condition then k tt w t
     else (inl (Exn AssertionError msg None), t))
  /\ bind (Assertion.soft_assert condition msg) k w t
     = (if condition then k tt w t
        else k tt w (t ++ [LogFailure msg])%list)
  /\ (fst (Assertion.hard_assert condition msg w t)
      = inl (Exn AssertionError msg None) <-> condition = false)
  /\ (snd (Assertion.soft_assert condition msg w t)
      = (t ++ [LogFailure msg])%list <-> condition = false)
  /\ fst (Assertion.soft_assert condition msg w t) = inr tt.
Proof.
  destruct condition; cbn.
  - repeat split; try reflexivity; try discriminate.
    intros H. exfalso.
    apply (f_equal (@length event)) in H. rewrite length_app in H.
    simpl in H. lia.
  - repeat split; reflexivity.
Qed.

(** ** Options resolution *)

Lemma lookup_dict_set_same k v d : lookup k (dict_set k v d) = Some v.
Proof.
  induction d as [| [k' v'] d IH]; simpl.
  - rewrite String.eqb_refl. reflexivity.
  - destruct (String.eqb k k') eqn:E; simpl.
    + rewrite String.eqb_refl. reflexivity.
    + rewrite E. exact IH.
Qed.

Lemma lookup_dict_set_other k k' v d :
  k <> k' -> lookup k (dict_set k' v d) = lookup k d.
Proof.
  intros Hne. induction d as [| [k1 v1] d IH]; simpl.
  - destruct (String.eqb_spec k k'); [contradiction | reflexivity].
  - destruct (String.eqb_spec k' k1) as [-> | Hk1]; simpl.
    + destruct (String.eqb_spec k k1); [contradiction | reflexivity].
    + destruct (String.eqb k k1); [reflexivity | exact IH].
Qed.

Lemma lookup_set_all_absent k items caps :
  ~ In k (map fst items) -> lookup k (set_all items caps) = lookup k caps.
Proof.
  revert caps. induction items as [| [k1 v1] items IH]; intros caps Hk.
  - reflexivity.
  - simpl in Hk |- *. unfold set_all in IH |- *. simpl.
    rewrite IH by tauto. apply lookup_dict_set_other.
    intros ->. tauto.
Qed.

Lemma lookup_set_all_present k v items caps :
  NoDup (map fst items) ->
  lookup k items = Some v ->
  lookup k (set_all items caps) = Some v.
Proof.
  revert caps. induction items as [| [k1 v1] items IH]; intros caps Hnd Hk.
  - discriminate.
  - simpl in Hnd, Hk. inversion Hnd as [| ? ? Hnotin Hnd']; subst.
    unfold set_all. simpl. fold (set_all items (dict_set k1 v1 caps)).
    destruct (String.eqb_spec k k1) as [-> | Hne].
    + injection Hk as ->.
      rewrite lookup_set_all_absent by exact Hnotin.
      apply lookup_dict_set_same.
    + apply IH; assumption.
Qed.

Lemma for_in_add_argument cls caps w t (l args : list json) :
  forallb truthy l = true ->
  for_in l WebDriverFactory.add_argument (Some (mkOptions cls args caps)) w t
  = (inr (Some (mkOptions cls (args ++ l) caps)), t).
Proof.
  revert args. induction l as [| a l IH]; intros args Hl; simpl.
  - rewrite app_nil_r. reflexivity.
  - simpl in Hl. apply andb_prop in Hl as [Ha Hl].
    unfold bind, WebDriverFactory.add_argument at 1. rewrite Ha. simpl.
    rewrite IH by exact Hl. rewrite <- app_assoc. reflexivity.
Qed.

Lemma for_in_set_capability cls args w t (items caps : dict) :
  for_in items WebDriverFactory.set_capability
         (Some (mkOptions cls args caps)) w t
  = (inr (Some (mkOptions cls args (set_all items caps))), t).
Proof.
  revert caps. induction items as [| kv items IH]; intros caps; simpl.
  - reflexivity.
  - unfold bind. simpl. rewrite IH. reflexivity.
Qed.

Lemma supported_cases (b : string) :
  In b WebDriverFactory.__SUPPORTED_BROWSERS ->
  b = "chrome" \/ b = "edge" \/ b = "firefox" \/ b = "safari".
Proof. simpl. intuition auto. Qed.

(** What [__get_options] returns for a supported browser, a configuration
    that is a mapping, and launch arguments that are a list of non-empty
    values: every argument appended in order, and every item of the
    configuration set as a capability on top of the constructor's defaults. *)
Lemma get_options_resolved w self b d l :
  WebDriverFactory.__browser self = Some b ->
  In b WebDriverFactory.__SUPPORTED_BROWSERS ->
  WebDriverFactory.__config_data self = JObj d ->
  dict_get "args" (JList []) d = JList l ->
  forallb truthy l = true ->
  run (WebDriverFactory.__get_options self) w
  = (inr (Some (mkOptions b l (set_all d (default_capabilities w b)))), []).
Proof.
  intros Hb Hin Hd Hargs Hl.
  unfold run, WebDriverFactory.__get_options. rewrite Hb, Hd.
  unfold bind at 1. unfold lift at 1. simpl method_get. rewrite Hargs.
  unfold bind at 1. unfold ask at 1.
  unfold bind at 1. unfold lift at 1. simpl iterate.
  unfold bind at 1.
  apply supported_cases in Hin.
  destruct Hin as [-> | [-> | [-> | ->]]]; simpl WebDriverFactory.str_eq;
    cbv iota; unfold WebDriverFactory.new_options;
    rewrite for_in_add_argument by exact Hl;
    unfold bind at 1; unfold lift at 1; simpl method_items;
    unfold bind at 1; rewrite for_in_set_capability; reflexivity.
Qed.

(** C1 (what the code does).  For a supported browser and a configuration
    with distinct keys whose [args] entry is a list of non-empty values, the
    options object returned by [__get_options] has those launch arguments and
    also carries a capability named [args], holding the whole list. *)
Theorem get_options_sets_args_capability w self b d l :
  WebDriverFactory.__browser self = Some b ->
  In b WebDriverFactory.__SUPPORTED_BROWSERS ->
  WebDriverFactory.__config_data self = JObj d ->
  NoDup (map fst d) ->
  lookup "args" d = Some (JList l) ->
  forallb truthy l = true ->
  exists o,
    result (WebDriverFactory.__get_options self) w = inr (Some o)
    /\ arguments o = l
    /\ lookup "args" (capabilities o) = Some (JList l).
Proof.
  intros Hb Hin Hd Hnd Hargs Hl.
  exists (mkOptions b l (set_all d (default_capabilities w b))).
  split; [| split].
  - unfold result.
    rewrite (@get_options_resolved w self b d l); try assumption.
    + reflexivity.
    + unfold dict_get. rewrite Hargs. reflexivity.
  - reflexivity.
  - simpl. apply lookup_set_all_present; assumption.
Qed.

Lemma get_options_sets_args_capability_witness :
  exists o,
    result (WebDriverFactory.__get_options
              (WebDriverFactory.mk (Some "chrome") false None None None
                                   (JObj Sample.headless_eager)))
           Sample.linux
    = inr (Some o)
    /\ arguments o = [JStr "--headless"; JStr "--no-sandbox"]
    /\ lookup "args" (capabilities o)
       = Some (JList [JStr "--headless"; JStr "--no-sandbox"]).
Proof.
  apply (@get_options_sets_args_capability
           Sample.linux
           (WebDriverFactory.mk (Some "chrome") false None None None
                                (JObj Sample.headless_eager))
           "chrome" Sample.headless_eager
           [JStr "--headless"; JStr "--no-sandbox"]).
  - reflexivity.
  - simpl. auto.
  - reflexivity.
  - repeat constructor; simpl; intuition discriminate.
  - reflexivity.
  - reflexivity.
Defined.

(** The scenario of the specification, run: two launch arguments, and two
    capabilities, [args] among them. *)
Example get_options_headless_eager :
  run (WebDriverFactory.__get_options
         (WebDriverFactory.mk (Some "chrome") false None None None
                              (JObj Sample.headless_eager)))
      Sample.linux
  = (inr (Some (mkOptions
                  "chrome"
                  [JStr "--headless"; JStr "--no-sandbox"]
                  [("args", JList [JStr "--headless"; JStr "--no-sandbox"]);
                   ("pageLoadStrategy", JStr "eager")])),
     []).
Proof. reflexivity. Qed.

(** ** Framing: every operation only appends to the trace *)

Lemma framed_ret {A} (a : A) : framed (ret a).
Proof. intros w t. simpl. rewrite app_nil_r. reflexivity. Qed.

Lemma framed_raise {A} (e : exn) : framed (@raise A e).
Proof. intros w t. simpl. rewrite app_nil_r. reflexivity. Qed.

Lemma framed_lift {A} (r : exn + A) : framed (lift r).
Proof. intros w t. simpl. rewrite app_nil_r. reflexivity. Qed.

Lemma framed_ask : framed ask.
Proof. intros w t. simpl. rewrite app_nil_r. reflexivity. Qed.

Lemma framed_emit e : framed (emit e).
Proof. intros w t. reflexivity. Qed.

Lemma framed_call e outcome : framed (call e outcome).
Proof. intros w t. unfold call. destruct (outcome w); reflexivity. Qed.

Lemma framed_call_value {A} e (outcome : World -> exn + A) :
  framed (call_value e outcome).
Proof. intros w t. reflexivity. Qed.

Lemma framed_bind {A B} (m : M A) (k : A -> M B) :
  framed m -> (forall a, framed (k a)) -> framed (bind m k).
Proof.
  intros Hm Hk w t. unfold bind. rewrite (Hm w t).
  destruct (m w []) as [[e | a] t0]; simpl.
  - reflexivity.
  - rewrite (Hk a w (t ++ t0)%list), (Hk a w t0). simpl.
    rewrite app_assoc. reflexivity.
Qed.

Lemma framed_try_except {A} (m : M A) (h : exn -> M A) :
  framed m -> (forall e, framed (h e)) -> framed (try_except m h).
Proof.
  intros Hm Hh w t. unfold try_except. rewrite (Hm w t).
  destruct (m w []) as [[e | a] t0]; simpl.
  - rewrite (Hh e w (t ++ t0)%list), (Hh e w t0). simpl.
    rewrite app_assoc. reflexivity.
  - reflexivity.
Qed.

Lemma framed_for_in {A S} (xs : list A) (body : A -> S -> M S) (s : S) :
  (forall x s', framed (body x s')) -> framed (for_in xs body s).
Proof.
  intros Hbody. revert s. induction xs as [| x xs IH]; intros s; simpl.
  - apply framed_ret.
  - apply framed_bind; [apply Hbody | exact IH].
Qed.

Create HintDb framed.
#[export] Hint Resolve framed_ret framed_raise framed_lift framed_ask
  framed_emit framed_call framed_call_value : framed.

(** Decompose a program along its binds, handlers, loops and branches. *)
Ltac framed_step :=
  match goal with
  | |- framed (bind _ _) => apply framed_bind; [| intros ?]
  | |- framed (try_except _ _) => apply framed_try_except; [| intros ?]
  | |- framed (for_in _ _ _) => apply framed_for_in; intros ? ?
  | |- framed (if ?c then _ else _) => destruct c
  | |- framed (match ?x with _ => _ end) => destruct x
  | |- framed _ => solve [auto with framed]
  end.

Ltac framed_auto := repeat framed_step.

Lemma framed_get_config_data self browser device :
  framed (Config.get_config_data self browser device).
Proof. unfold Config.get_config_data. framed_auto. Qed.

Lemma framed_Config_init path : framed (Config.__init__ path).
Proof.
  unfold Config.__init__, Config.__load_test_config_data. framed_auto.
Qed.

Lemma framed_resolve_config self path :
  framed (WebDriverFactory.resolve_config self path).
Proof.
  unfold WebDriverFactory.resolve_config.
  destruct (truthy_str path); [| apply framed_ret].
  apply framed_bind; [apply framed_Config_init | intros cfg].
  apply framed_bind; [apply framed_get_config_data | intros data].
  apply framed_ret.
Qed.

Lemma framed_get_options self : framed (WebDriverFactory.__get_options self).
Proof.
  unfold WebDriverFactory.__get_options.
  apply framed_bind; [apply framed_lift | intros args].
  apply framed_bind; [apply framed_ask | intros w].
  apply framed_bind; [apply framed_lift | intros xs].
  apply framed_bind.
  - apply framed_for_in. intros x s.
    unfold WebDriverFactory.add_argument. framed_auto.
  - intros o. apply framed_bind; [apply framed_lift | intros items].
    apply framed_bind; [| intros o'; apply framed_ret].
    apply framed_for_in. intros x s.
    unfold WebDriverFactory.set_capability. framed_auto.
Qed.

Lemma framed_init_service self : framed (WebDriverFactory.__init_service self).
Proof.
  unfold WebDriverFactory.__init_service, WebDriverFactory.managed_service.
  framed_auto.
Qed.

Lemma framed_create_remote_driver self :
  framed (WebDriverFactory.__create_remote_driver self).
Proof.
  unfold WebDriverFactory.__create_remote_driver.
  apply framed_bind; [apply framed_get_options | intros options].
  apply framed_bind; [apply framed_init_service | intros self'].
  framed_auto.
Qed.

Lemma framed_create_local_driver self :
  framed (WebDriverFactory.__create_local_driver self).
Proof.
  unfold WebDriverFactory.__create_local_driver.
  apply framed_bind; [apply framed_get_options | intros options].
  apply framed_bind; [apply framed_init_service | intros self'].
  unfold WebDriverFactory.local_webdriver. framed_auto.
Qed.

Lemma framed_set_webdriver self :
  framed (WebDriverFactory.__set_webdriver self).
Proof.
  unfold WebDriverFactory.__set_webdriver.
  apply framed_bind; [| intros r; apply framed_ret].
  destruct (WebDriverFactory.__remote self && _).
  - apply framed_create_remote_driver.
  - apply framed_create_local_driver.
Qed.

(** ** What each step of the constructor leaves in the trace *)

(** Resolving options talks to nobody. *)
Lemma get_options_events self w :
  events (WebDriverFactory.__get_options self) w = [].
Proof.
  assert (Hadd : forall xs o t,
             snd (for_in xs WebDriverFactory.add_argument o w t) = t).
  { induction xs as [| x xs IH]; intros o t; simpl; [reflexivity |].
    unfold bind. destruct o as [o |]; simpl; [| reflexivity].
    destruct (truthy x); simpl; [apply IH | reflexivity]. }
  assert (Hset : forall xs o t,
             snd (for_in xs WebDriverFactory.set_capability o w t) = t).
  { induction xs as [| x xs IH]; intros o t; simpl; [reflexivity |].
    unfold bind. destruct o as [o |]; simpl; [apply IH | reflexivity]. }
  unfold events, run, WebDriverFactory.__get_options, bind, lift, ask.
  destruct (method_get _ _ _) as [e | args]; [reflexivity |].
  destruct (iterate args) as [e | xs]; [reflexivity |].
  match goal with
  | |- context [for_in xs WebDriverFactory.add_argument ?o w ?t] =>
      pose proof (Hadd xs o t) as H1;
      destruct (for_in xs WebDriverFactory.add_argument o w t) as [[e | o1] t1]
  end; simpl in H1; subst; [reflexivity |].
  destruct (method_items _) as [e | items]; [reflexivity |].
  match goal with
  | |- context [for_in items WebDriverFactory.set_capability ?o w ?t] =>
      pose proof (Hset items o t) as H2;
      destruct (for_in items WebDriverFactory.set_capability o w t)
        as [[e | o2] t2]
  end; simpl in H2; subst; reflexivity.
Qed.

(** Resolving the configuration at most opens the configuration file, and
    changes nothing of the factory but its configuration data. *)
Lemma resolve_config_events self path w :
  events (WebDriverFactory.resolve_config self path) w = []
  \/ events (WebDriverFactory.resolve_config self path) w
     = [Open (str_of path)].
Proof.
  unfold events, run, WebDriverFactory.resolve_config.
  destruct (truthy_str path) eqn:Hp; [| left; reflexivity].
  right. unfold Config.__init__. rewrite Hp.
  unfold Config.__load_test_config_data, bind, try_except, call_value.
  simpl. destruct (open_json_load w (str_of path)) as [e | doc]; simpl.
  - destruct (Config.is_FileNotFoundError e); reflexivity.
  - unfold Config.get_config_data, bind, lift.
    destruct (truthy_str (WebDriverFactory.__browser self)); simpl;
      [| reflexivity].
    destruct (method_get doc "browsers" None_) as [e | browsers]; simpl;
      [reflexivity |].
    destruct (method_get browsers _ _); reflexivity.
Qed.

Lemma resolve_config_quiet self path w :
  sessions (events (WebDriverFactory.resolve_config self path) w) = []
  /\ services (events (WebDriverFactory.resolve_config self path) w) = [].
Proof.
  destruct (resolve_config_events self path w) as [-> | ->];
    split; reflexivity.
Qed.

Lemma resolve_config_result self path w self' :
  result (WebDriverFactory.resolve_config self path) w = inr self' ->
  exists data, self' = WebDriverFactory.set_config_data self data.
Proof.
  unfold result, run, WebDriverFactory.resolve_config.
  destruct (truthy_str path).
  - unfold bind.
    destruct (Config.__init__ path w []) as [[e | cfg] t]; [discriminate |].
    destruct (Config.get_config_data _ _ _ w t) as [[e | data] t'];
      [discriminate |].
    simpl. intros [= <-]. exists data. reflexivity.
  - simpl. intros [= <-]. exists (WebDriverFactory.__config_data self).
    destruct self; reflexivity.
Qed.

Lemma resolve_config_no_path self path w :
  truthy_str path = false ->
  run (WebDriverFactory.resolve_config self path) w = (inr self, []).
Proof.
  intros Hp. unfold run, WebDriverFactory.resolve_config. rewrite Hp.
  reflexivity.
Qed.

(** A configuration file that loads to a document whose [browsers] entry is
    a mapping resolves, for a non-empty browser name. *)
Lemma resolve_config_loaded self path w d bs b :
  truthy_str path = true ->
  open_json_load w (str_of path) = inr (JObj d) ->
  lookup "browsers" d = Some (JObj bs) ->
  WebDriverFactory.__browser self = Some b ->
  b <> "" ->
  run (WebDriverFactory.resolve_config self path) w
  = (inr (WebDriverFactory.set_config_data self (dict_get b (JObj []) bs)),
     [Open (str_of path)]).
Proof.
  intros Hp Hopen Hbs Hb Hne.
  unfold run, WebDriverFactory.resolve_config. rewrite Hp.
  unfold Config.__init__. rewrite Hp.
  unfold Config.__load_test_config_data, bind, try_except, call_value.
  simpl. rewrite Hopen. simpl. rewrite Hb.
  unfold Config.get_config_data. rewrite (truthy_str_Some Hne).
  unfold bind, lift, method_get, dict_get. simpl. rewrite Hbs. reflexivity.
Qed.

(** ** The constructor *)

Section Constructor.

Variable w : World.
Variables (browser : option string) (remote : bool).
Variables (grid_url test_config_path : option string).

(** The object as the field initialisations of [__init__] leave it. *)
Let self0 : WebDriverFactory.t :=
  WebDriverFactory.mk browser remote grid_url None None (JObj []).

Let construct : M WebDriverFactory.t :=
  WebDriverFactory.__init__ browser remote grid_url test_config_path.

(** The constructor, step by step: configuration, platform, browser name,
    session. *)
Lemma init_run :
  run construct w
  = match run (WebDriverFactory.resolve_config self0 test_config_path) w with
    | (inl e, t) => (inl e, t)
    | (inr self, t) =>
        if String.eqb (platform_system w) "Windows"
           && WebDriverFactory.str_eq browser "safari"
        then (inl (WebDriverFactory.unsupported_platform browser), t)
        else if negb (WebDriverFactory.str_in
                        browser WebDriverFactory.__SUPPORTED_BROWSERS)
        then (inl (WebDriverFactory.unsupported_browser browser), t)
        else (result (WebDriverFactory.__set_webdriver self) w,
              (t ++ events (WebDriverFactory.__set_webdriver self) w)%list)
    end.
Proof.
  unfold construct, WebDriverFactory.__init__, run. fold self0.
  unfold bind at 1.
  destruct (WebDriverFactory.resolve_config self0 test_config_path w [])
    as [[e | self] t] eqn:Hcfg; [reflexivity |].
  assert (Hb : WebDriverFactory.__browser self = browser).
  { destruct (@resolve_config_result self0 test_config_path w self)
      as [data ->]; [unfold result, run; rewrite Hcfg |]; reflexivity. }
  unfold bind at 1.
  unfold WebDriverFactory.__check_platform_compatibility, bind at 1, ask.
  rewrite Hb.
  destruct (String.eqb (platform_system w) "Windows"
            && WebDriverFactory.str_eq browser "safari"); [reflexivity |].
  unfold ret at 1. unfold bind.
  unfold WebDriverFactory.__check_browser_availability. rewrite Hb.
  destruct (negb (WebDriverFactory.str_in
                    browser WebDriverFactory.__SUPPORTED_BROWSERS));
    [reflexivity |].
  unfold ret at 1.
  apply (framed_set_webdriver self w t).
Qed.

(** A browser name outside the supported set is not ["safari"]. *)
Lemma unsupported_not_safari :
  WebDriverFactory.str_in browser WebDriverFactory.__SUPPORTED_BROWSERS
  = false ->
  WebDriverFactory.str_eq browser "safari" = false.
Proof.
  unfold WebDriverFactory.str_in. simpl. intros H.
  do 3 (apply orb_false_elim in H; destruct H as [_ H]).
  apply orb_false_elim in H. tauto.
Qed.

(** A failure of configuration resolution is the constructor's failure,
    whatever the platform and the browser name. *)
Lemma init_config_failure e :
  result (WebDriverFactory.resolve_config self0 test_config_path) w = inl e ->
  run construct w
  = (inl e, events (WebDriverFactory.resolve_config self0 test_config_path) w).
Proof.
  rewrite init_run. unfold result, events.
  destruct (run (WebDriverFactory.resolve_config self0 test_config_path) w)
    as [[e' | self] t]; simpl; [intros [= ->]; reflexivity | discriminate].
Qed.

(** Once the configuration is resolved, an incompatible platform is the
    next failure. *)
Lemma init_platform_failure self :
  result (WebDriverFactory.resolve_config self0 test_config_path) w
  = inr self ->
  platform_system w = "Windows" ->
  browser = Some "safari" ->
  run construct w
  = (inl (WebDriverFactory.unsupported_platform browser),
     events (WebDriverFactory.resolve_config self0 test_config_path) w).
Proof.
  rewrite init_run. unfold result, events.
  destruct (run (WebDriverFactory.resolve_config self0 test_config_path) w)
    as [[e' | self'] t]; simpl; [discriminate |].
  intros _ -> ->. reflexivity.
Qed.

(** Once the configuration is resolved, an unsupported browser name is the
    failure. *)
Lemma init_browser_failure self :
  result (WebDriverFactory.resolve_config self0 test_config_path) w
  = inr self ->
  WebDriverFactory.str_in browser WebDriverFactory.__SUPPORTED_BROWSERS
  = false ->
  run construct w
  = (inl (WebDriverFactory.unsupported_browser browser),
     events (WebDriverFactory.resolve_config self0 test_config_path) w).
Proof.
  rewrite init_run. unfold result, events.
  destruct (run (WebDriverFactory.resolve_config self0 test_config_path) w)
    as [[e' | self'] t]; simpl; [discriminate |].
  intros _ Hin. pose proof (unsupported_not_safari Hin) as Hsafari.
  rewrite Hin, Hsafari, andb_false_r. reflexivity.
Qed.

(** A constructor that stops at one of the three checks has set up no
    service and created no session. *)
Lemma init_stops_early :
  (String.eqb (platform_system w) "Windows"
   && WebDriverFactory.str_eq browser "safari"
   || negb (WebDriverFactory.str_in
              browser WebDriverFactory.__SUPPORTED_BROWSERS)) = true ->
  (exists e, result construct w = inl e)
  /\ sessions (events construct w) = []
  /\ services (events construct w) = [].
Proof.
  intros Hstop. unfold result, events. rewrite init_run.
  pose proof (resolve_config_quiet self0 test_config_path w) as [Hs Hv].
  unfold events in Hs, Hv.
  destruct (run (WebDriverFactory.resolve_config self0 test_config_path) w)
    as [[e | self] t]; simpl in *.
  - split; [exists e; reflexivity | split; assumption].
  - destruct (String.eqb (platform_system w) "Windows"
              && WebDriverFactory.str_eq browser "safari"); simpl in *.
    + split; [eexists; reflexivity | split; assumption].
    + rewrite Hstop. simpl.
      split; [eexists; reflexivity | split; assumption].
Qed.

End Constructor.

(** C2 (as amended).  The constructor resolves the configuration first (when
    a config path was given), then checks the platform, then the browser
    name: a failure of the resolution is the constructor's failure whatever
    the platform and the browser name are; once the configuration is
    resolved, an incompatible platform fails with the platform error and an
    unsupported browser name with the browser error; in each case nothing
    has happened after the failing step. *)
Theorem constructor_order w browser remote grid_url test_config_path :
  let self0 :=
    WebDriverFactory.mk browser remote grid_url None None (JObj []) in
  let cfg := run (WebDriverFactory.resolve_config self0 test_config_path) w in
  let r :=
    run (WebDriverFactory.__init__ browser remote grid_url test_config_path) w
  in
  (forall e, fst cfg = inl e -> r = (inl e, snd cfg))
  /\ (forall self,
        fst cfg = inr self ->
        platform_system w = "Windows" ->
        browser = Some "safari" ->
        r = (inl (WebDriverFactory.unsupported_platform browser), snd cfg))
  /\ (forall self,
        fst cfg = inr self ->
        WebDriverFactory.str_in browser WebDriverFactory.__SUPPORTED_BROWSERS
        = false ->
        r = (inl (WebDriverFactory.unsupported_browser browser), snd cfg)).
Proof.
  intros self0 cfg r. split; [| split].
  - intros e He. apply init_config_failure. exact He.
  - intros self Hcfg Hw Hb. eapply init_platform_failure; eassumption.
  - intros self Hcfg Hin. eapply init_browser_failure; eassumption.
Qed.

Lemma constructor_order_witness :
  run (WebDriverFactory.__init__ (Some "safari") false None
                                 (Some "missing.json")) Sample.windows
  = (inl (Exn PyTestFlowException
              "Test config data file path not found. Please verify the correct path location.Path provided is: missing.json"
              (Some (Sample.file_not_found "missing.json"))),
     [Open "missing.json"])
  /\ run (WebDriverFactory.__init__ (Some "safari") false None
                                    (Some "env.json")) Sample.windows
     = (inl (Exn PyTestFlowException "safari is not supported on Windows."
                 None),
        [Open "env.json"])
  /\ run (WebDriverFactory.__init__ (Some "opera") false None None)
         Sample.linux
     = (inl (Exn PyTestFlowException
                 "Unsupported Browser: opera. Supported browsers are chrome,edge,firefox,safari"
                 None),
        []).
Proof.
  split; [| split].
  - exact (proj1 (constructor_order Sample.windows (Some "safari") false None
                                    (Some "missing.json"))
                 _ eq_refl).
  - exact (proj1 (proj2 (constructor_order Sample.windows (Some "safari")
                                           false None (Some "env.json")))
                 _ eq_refl eq_refl eq_refl).
  - exact (proj2 (proj2 (constructor_order Sample.linux (Some "opera")
                                           false None None))
                 _ eq_refl eq_refl).
Defined.

(** C2 as stated fails: for Safari on Windows the platform check, run on its
    own, raises the platform error; yet the constructor given the path of a
    missing configuration file has already opened that path and raises the
    configuration error instead. *)
Lemma constructor_config_error_precedes_platform_error :
  run (WebDriverFactory.__check_platform_compatibility
         (WebDriverFactory.mk (Some "safari") false None None None (JObj [])))
      Sample.windows
  = (inl (WebDriverFactory.unsupported_platform (Some "safari")), [])
  /\ run (WebDriverFactory.__init__ (Some "safari") false None
                                    (Some "missing.json")) Sample.windows
     = (inl (Exn PyTestFlowException
                 "Test config data file path not found. Please verify the correct path location.Path provided is: missing.json"
                 (Some (Sample.file_not_found "missing.json"))),
        [Open "missing.json"])
  /\ Exn PyTestFlowException
         "Test config data file path not found. Please verify the correct path location.Path provided is: missing.json"
         (Some (Sample.file_not_found "missing.json"))
     <> WebDriverFactory.unsupported_platform (Some "safari").
Proof. repeat split; try reflexivity. discriminate. Qed.

(** C3 (as amended).  On a Windows host, constructing the factory for
    ["safari"] always fails, with no service set up and no session created;
    the failure is the platform error when no config path is given and when
    the configuration file loads to a document whose [browsers] entry is a
    mapping. *)
Theorem safari_on_windows w remote grid_url test_config_path :
  platform_system w = "Windows" ->
  let construct :=
    WebDriverFactory.__init__ (Some "safari") remote grid_url test_config_path
  in
  (exists e, result construct w = inl e)
  /\ sessions (events construct w) = []
  /\ services (events construct w) = []
  /\ (truthy_str test_config_path = false ->
      result construct w
      = inl (WebDriverFactory.unsupported_platform (Some "safari")))
  /\ (forall d bs,
        open_json_load w (str_of test_config_path) = inr (JObj d) ->
        lookup "browsers" d = Some (JObj bs) ->
        result construct w
        = inl (WebDriverFactory.unsupported_platform (Some "safari"))).
Proof.
  intros Hw construct.
  assert (Hstop : (String.eqb (platform_system w) "Windows"
                   && WebDriverFactory.str_eq (Some "safari") "safari"
                   || negb (WebDriverFactory.str_in
                              (Some "safari")
                              WebDriverFactory.__SUPPORTED_BROWSERS)) = true)
    by (rewrite Hw; reflexivity).
  destruct (init_stops_early w (Some "safari") remote grid_url
                             test_config_path Hstop) as (Hfail & Hs & Hv).
  assert (Hno : truthy_str test_config_path = false ->
                result construct w
                = inl (WebDriverFactory.unsupported_platform (Some "safari"))).
  { intros Hp. unfold result, construct.
    erewrite init_platform_failure; [reflexivity | | exact Hw | reflexivity].
    unfold result. rewrite resolve_config_no_path by exact Hp. reflexivity. }
  repeat split; try assumption.
  intros d bs Hopen Hbs.
  destruct (truthy_str test_config_path) eqn:Hp; [| apply Hno; reflexivity].
  unfold result, construct.
  erewrite init_platform_failure; [reflexivity | | exact Hw | reflexivity].
  unfold result.
  erewrite resolve_config_loaded;
    [reflexivity | exact Hp | exact Hopen | exact Hbs | reflexivity
     | discriminate].
Qed.

Lemma safari_on_windows_witness :
  (exists e,
      result (WebDriverFactory.__init__ (Some "safari") false None
                                        (Some "env.json")) Sample.windows
      = inl e)
  /\ sessions (events (WebDriverFactory.__init__ (Some "safari") false None
                                                 (Some "env.json"))
                      Sample.windows) = []
  /\ services (events (WebDriverFactory.__init__ (Some "safari") false None
                                                 (Some "env.json"))
                      Sample.windows) = []
  /\ result (WebDriverFactory.__init__ (Some "safari") false None
                                       (Some "env.json")) Sample.windows
     = inl (Exn PyTestFlowException "safari is not supported on Windows."
                None).
Proof.
  destruct (@safari_on_windows Sample.windows false None (Some "env.json")
                               eq_refl) as (Hfail & Hs & Hv & _ & Hdoc).
  split; [exact Hfail | split; [exact Hs | split; [exact Hv |]]].
  exact (Hdoc Sample.document_items
              [("chrome", JObj Sample.headless_eager)] eq_refl eq_refl).
Defined.

(** C3 as stated fails for the configuration content [{}]: on Windows, for
    ["safari"], the constructor raises the [AttributeError] of the lookup,
    not the platform error. *)
Lemma safari_on_windows_empty_document :
  platform_system Sample.windows = "Windows"
  /\ open_json_load Sample.windows "empty.json" = inr (JObj [])
  /\ run (WebDriverFactory.__init__ (Some "safari") false None
                                    (Some "empty.json")) Sample.windows
     = (inl (Exn AttributeError "'NoneType' object has no attribute 'get'"
                 None),
        [Open "empty.json"])
  /\ Exn AttributeError "'NoneType' object has no attribute 'get'" None
     <> WebDriverFactory.unsupported_platform (Some "safari").
Proof. repeat split; try reflexivity. discriminate. Qed.

(** C4 (as amended).  For a browser name outside the supported set the
    constructor always fails, with no service set up and no session created,
    so no session handle is produced; the failure is the unsupported-browser
    error, whose message lists the supported set, whenever the configuration
    resolves, in particular when no config path is given. *)
Theorem unsupported_browser_rejected
        w browser remote grid_url test_config_path :
  WebDriverFactory.str_in browser WebDriverFactory.__SUPPORTED_BROWSERS
  = false ->
  let construct :=
    WebDriverFactory.__init__ browser remote grid_url test_config_path in
  (exists e, result construct w = inl e)
  /\ sessions (events construct w) = []
  /\ services (events construct w) = []
  /\ (forall self,
        result (WebDriverFactory.resolve_config
                  (WebDriverFactory.mk browser remote grid_url None None
                                       (JObj []))
                  test_config_path) w
        = inr self ->
        result construct w
        = inl (WebDriverFactory.unsupported_browser browser))
  /\ (truthy_str test_config_path = false ->
      result construct w = inl (WebDriverFactory.unsupported_browser browser))
  /\ exn_str (WebDriverFactory.unsupported_browser browser)
     = "Unsupported Browser: " ++ str_of browser
       ++ ". Supported browsers are chrome,edge,firefox,safari".
Proof.
  intros Hin construct.
  assert (Hstop : (String.eqb (platform_system w) "Windows"
                   && WebDriverFactory.str_eq browser "safari"
                   || negb (WebDriverFactory.str_in
                              browser
                              WebDriverFactory.__SUPPORTED_BROWSERS)) = true)
    by (rewrite Hin; apply orb_true_r).
  destruct (init_stops_early w browser remote grid_url
                             test_config_path Hstop) as (Hfail & Hs & Hv).
  assert (Hres : forall self,
             result (WebDriverFactory.resolve_config
                       (WebDriverFactory.mk browser remote grid_url None None
                                            (JObj []))
                       test_config_path) w
             = inr self ->
             result construct w
             = inl (WebDriverFactory.unsupported_browser browser)).
  { intros self Hcfg. unfold result, construct.
    erewrite init_browser_failure; [reflexivity | exact Hcfg | exact Hin]. }
  repeat split; try assumption.
  intros Hp. eapply Hres. unfold result.
  rewrite resolve_config_no_path by exact Hp. reflexivity.
Qed.

Lemma unsupported_browser_rejected_witness :
  (exists e,
      result (WebDriverFactory.__init__ (Some "opera") true
                                        (Some "http://grid:4444") None)
             Sample.linux
      = inl e)
  /\ sessions (events (WebDriverFactory.__init__
                         (Some "opera") true (Some "http://grid:4444") None)
                      Sample.linux) = []
  /\ result (WebDriverFactory.__init__ (Some "opera") true
                                       (Some "http://grid:4444") None)
            Sample.linux
     = inl (Exn PyTestFlowException
                "Unsupported Browser: opera. Supported browsers are chrome,edge,firefox,safari"
                None).
Proof.
  destruct (@unsupported_browser_rejected
              Sample.linux (Some "opera") true (Some "http://grid:4444") None
              eq_refl) as (Hfail & Hs & _ & _ & Hno & _).
  split; [exact Hfail | split; [exact Hs |]].
  exact (Hno eq_refl).
Defined.

(** C4 as stated fails when a config path is given and the configuration
    does not resolve: for the unsupported name ["opera"] and a missing file
    the constructor raises the configuration error, not the
    unsupported-browser error. *)
Lemma unsupported_browser_config_error_first :
  WebDriverFactory.str_in (Some "opera") WebDriverFactory.__SUPPORTED_BROWSERS
  = false
  /\ run (WebDriverFactory.__init__ (Some "opera") false None
                                    (Some "missing.json")) Sample.linux
     = (inl (Exn PyTestFlowException
                 "Test config data file path not found. Please verify the correct path location.Path provided is: missing.json"
                 (Some (Sample.file_not_found "missing.json"))),
        [Open "missing.json"])
  /\ Exn PyTestFlowException
         "Test config data file path not found. Please verify the correct path location.Path provided is: missing.json"
         (Some (Sample.file_not_found "missing.json"))
     <> WebDriverFactory.unsupported_browser (Some "opera").
Proof. repeat split; try reflexivity. discriminate. Qed.

(** ** Session creation *)

Lemma init_service_result self w serviced :
  result (WebDriverFactory.__init_service self) w = inr serviced ->
  exists s, serviced = WebDriverFactory.set_service self s.
Proof.
  unfold result, run, WebDriverFactory.__init_service, try_except,
    WebDriverFactory.managed_service, bind, call_value, emit, ret.
  repeat match goal with
         | |- context [if ?c then _ else _] => destruct c
         | |- context [driver_manager_install w ?b] =>
             destruct (driver_manager_install w b)
         end; simpl; try discriminate;
    intros [= <-]; try (eexists; reflexivity).
  exists (WebDriverFactory.__service self). destruct self; reflexivity.
Qed.

(** Setting up the service creates no session. *)
Lemma init_service_quiet self w :
  sessions (events (WebDriverFactory.__init_service self) w) = [].
Proof.
  unfold events, run, WebDriverFactory.__init_service, try_except,
    WebDriverFactory.managed_service, bind, call_value, emit, ret, raise.
  repeat match goal with
         | |- context [if ?c then _ else _] => destruct c
         | |- context [driver_manager_install w ?b] =>
             destruct (driver_manager_install w b)
         end; reflexivity.
Qed.

Lemma str_eq_true x name :
  WebDriverFactory.str_eq x name = true -> x = Some name.
Proof.
  destruct x as [s |]; simpl; [| discriminate].
  intros H. apply String.eqb_eq in H. congruence.
Qed.

(** The remote branch of [__set_webdriver]. *)
Lemma set_webdriver_remote self w self' t :
  WebDriverFactory.__remote self
  && truthy_str (WebDriverFactory.__grid_url self) = true ->
  run (WebDriverFactory.__set_webdriver self) w = (inr self', t) ->
  exists options serviced,
    result (WebDriverFactory.__get_options self) w = inr options
    /\ result (WebDriverFactory.__init_service self) w = inr serviced
    /\ t = (events (WebDriverFactory.__init_service self) w
            ++ [NewRemote (WebDriverFactory.__grid_url self) options])%list
    /\ WebDriverFactory.__driver self'
       = Some (Remote (WebDriverFactory.__grid_url self) options).
Proof.
  intros Hremote. unfold run, WebDriverFactory.__set_webdriver.
  rewrite Hremote. unfold WebDriverFactory.__create_remote_driver.
  unfold bind at 1. unfold bind at 1.
  pose proof (get_options_events self w) as Hquiet.
  unfold events, run in Hquiet. unfold result at 1, run.
  destruct (WebDriverFactory.__get_options self w []) as [[e | options] t1];
    [discriminate |].
  simpl in Hquiet. subst t1.
  unfold bind at 1.
  rewrite (framed_init_service self w []). fold (run (WebDriverFactory.__init_service self) w).
  fold (result (WebDriverFactory.__init_service self) w).
  fold (events (WebDriverFactory.__init_service self) w).
  destruct (result (WebDriverFactory.__init_service self) w)
    as [e | serviced] eqn:Hsvc; [discriminate |].
  destruct (init_service_result self w Hsvc) as [s ->].
  unfold bind, try_except, call. simpl.
  destruct (remote_session w (WebDriverFactory.__grid_url self) options)
    as [e |]; simpl.
  - destruct (WebDriverFactory.is_WebDriverException e); discriminate.
  - intros [= <- <-]. exists options. eexists.
    repeat split; reflexivity.
Qed.

(** The local branch of [__set_webdriver], for a supported browser. *)
Lemma set_webdriver_local self w self' t :
  WebDriverFactory.__remote self
  && truthy_str (WebDriverFactory.__grid_url self) = false ->
  WebDriverFactory.str_in (WebDriverFactory.__browser self)
                          WebDriverFactory.__SUPPORTED_BROWSERS = true ->
  run (WebDriverFactory.__set_webdriver self) w = (inr self', t) ->
  exists b options serviced,
    WebDriverFactory.__browser self = Some b
    /\ result (WebDriverFactory.__get_options self) w = inr options
    /\ result (WebDriverFactory.__init_service self) w = inr serviced
    /\ t = (events (WebDriverFactory.__init_service self) w
            ++ [NewLocal b options (WebDriverFactory.__service serviced)])%list
    /\ WebDriverFactory.__driver self'
       = Some (Local b options (WebDriverFactory.__service serviced))
    /\ WebDriverFactory.__service self'
       = WebDriverFactory.__service serviced.
Proof.
  intros Hlocal Hin. unfold run, WebDriverFactory.__set_webdriver.
  rewrite Hlocal. unfold WebDriverFactory.__create_local_driver.
  unfold bind at 1. unfold bind at 1.
  pose proof (get_options_events self w) as Hquiet.
  unfold events, run in Hquiet. unfold result at 1, run.
  destruct (WebDriverFactory.__get_options self w []) as [[e | options] t1];
    [discriminate |].
  simpl in Hquiet. subst t1.
  unfold bind at 1.
  rewrite (framed_init_service self w []).
  fold (run (WebDriverFactory.__init_service self) w).
  fold (result (WebDriverFactory.__init_service self) w).
  fold (events (WebDriverFactory.__init_service self) w).
  destruct (result (WebDriverFactory.__init_service self) w)
    as [e | serviced] eqn:Hsvc; [discriminate |].
  destruct (init_service_result self w Hsvc) as [s Hs].
  assert (Hb : WebDriverFactory.__browser serviced
               = WebDriverFactory.__browser self) by (subst; reflexivity).
  unfold WebDriverFactory.str_in in Hin. simpl in Hin.
  unfold WebDriverFactory.local_webdriver, bind, call. rewrite Hb.
  destruct (WebDriverFactory.str_eq (WebDriverFactory.__browser self)
                                    "chrome") eqn:Hc;
    [apply str_eq_true in Hc |
     destruct (WebDriverFactory.str_eq (WebDriverFactory.__browser self)
                                       "edge") eqn:He;
     [apply str_eq_true in He |
      destruct (WebDriverFactory.str_eq (WebDriverFactory.__browser self)
                                        "firefox") eqn:Hf;
      [apply str_eq_true in Hf |
       destruct (WebDriverFactory.str_eq (WebDriverFactory.__browser self)
                                         "safari") eqn:Hsaf;
       [apply str_eq_true in Hsaf | discriminate Hin]]]];
    cbv beta;
    match goal with
    | |- context [local_session w ?b options ?svc] =>
        destruct (local_session w b options svc);
        [discriminate |];
        simpl; intros [= <- <-];
        exists b, options, serviced;
        repeat split; try assumption; reflexivity
    end.
Qed.

(** C7.  A construction that succeeds has created exactly one session: a
    remote one, on the grid URL with the resolved options, when the remote
    flag is set and the grid URL is non-empty; otherwise a local one, for the
    requested browser, with the resolved options and the resolved service.
    The handle the factory holds is that session. *)
Theorem one_session_per_construction
        w browser remote grid_url test_config_path self tr :
  run (WebDriverFactory.__init__ browser remote grid_url test_config_path) w
  = (inr self, tr) ->
  exists cfg options serviced,
    result (WebDriverFactory.resolve_config
              (WebDriverFactory.mk browser remote grid_url None None
                                   (JObj []))
              test_config_path) w
    = inr cfg
    /\ result (WebDriverFactory.__get_options cfg) w = inr options
    /\ result (WebDriverFactory.__init_service cfg) w = inr serviced
    /\ if remote && truthy_str grid_url
       then sessions tr = [NewRemote grid_url options]
            /\ WebDriverFactory.get_webdriver self
               = Some (Remote grid_url options)
       else exists b,
           browser = Some b
           /\ sessions tr
              = [NewLocal b options (WebDriverFactory.__service serviced)]
           /\ WebDriverFactory.get_webdriver self
              = Some (Local b options (WebDriverFactory.__service serviced)).
Proof.
  intros Hrun. rewrite init_run in Hrun.
  pose proof (resolve_config_quiet
                (WebDriverFactory.mk browser remote grid_url None None
                                     (JObj []))
                test_config_path w) as [Hquiet _].
  unfold result at 1. unfold events in Hquiet.
  destruct (run (WebDriverFactory.resolve_config _ test_config_path) w)
    as [[e | cfg] t0] eqn:Hcfg; [discriminate |].
  simpl in Hquiet.
  destruct (String.eqb (platform_system w) "Windows"
            && WebDriverFactory.str_eq browser "safari"); [discriminate |].
  destruct (WebDriverFactory.str_in
              browser WebDriverFactory.__SUPPORTED_BROWSERS) eqn:Hin;
    [| discriminate].
  simpl in Hrun. injection Hrun as Hres Htr.
  destruct (@resolve_config_result
              (WebDriverFactory.mk browser remote grid_url None None (JObj []))
              test_config_path w cfg) as [data Hdata];
    [unfold result; rewrite Hcfg; reflexivity |].
  assert (Hset : run (WebDriverFactory.__set_webdriver cfg) w
                 = (inr self, events (WebDriverFactory.__set_webdriver cfg) w)).
  { unfold events. unfold result in Hres.
    destruct (run (WebDriverFactory.__set_webdriver cfg) w) as [r t'].
    simpl in Hres |- *. rewrite Hres. reflexivity. }
  assert (Hb : WebDriverFactory.__browser cfg = browser)
    by (subst cfg; reflexivity).
  assert (Hr : WebDriverFactory.__remote cfg = remote)
    by (subst cfg; reflexivity).
  assert (Hg : WebDriverFactory.__grid_url cfg = grid_url)
    by (subst cfg; reflexivity).
  exists cfg.
  destruct (remote && truthy_str grid_url) eqn:Hremote.
  - assert (Hcond : WebDriverFactory.__remote cfg
                    && truthy_str (WebDriverFactory.__grid_url cfg) = true)
      by (rewrite Hr, Hg; exact Hremote).
    pose proof (@set_webdriver_remote cfg w self _ Hcond Hset)
      as (options & serviced & Hopt & Hsvc & Ht & Hd).
    exists options, serviced. rewrite Hg in Ht, Hd.
    repeat split; try assumption.
    rewrite <- Htr, Ht. unfold sessions in *.
    rewrite !filter_app, Hquiet.
    pose proof (init_service_quiet cfg w) as Hq. unfold sessions in Hq.
    rewrite Hq. reflexivity.
  - assert (Hcond : WebDriverFactory.__remote cfg
                    && truthy_str (WebDriverFactory.__grid_url cfg) = false)
      by (rewrite Hr, Hg; exact Hremote).
    assert (Hin' : WebDriverFactory.str_in
                     (WebDriverFactory.__browser cfg)
                     WebDriverFactory.__SUPPORTED_BROWSERS = true)
      by (rewrite Hb; exact Hin).
    pose proof (@set_webdriver_local cfg w self _ Hcond Hin' Hset)
      as (b & options & serviced & Hbb & Hopt & Hsvc & Ht & Hd & _).
    exists options, serviced.
    repeat split; try assumption.
    exists b. rewrite Hb in Hbb.
    repeat split; try assumption.
    rewrite <- Htr, Ht. unfold sessions in *.
    rewrite !filter_app, Hquiet.
    pose proof (init_service_quiet cfg w) as Hq. unfold sessions in Hq.
    rewrite Hq. reflexivity.
Qed.

Lemma one_session_per_construction_witness :
  (exists cfg options serviced,
      result (WebDriverFactory.resolve_config
                (WebDriverFactory.mk (Some "chrome") true
                                     (Some "http://grid:4444") None None
                                     (JObj []))
                (Some "env.json")) Sample.linux
      = inr cfg
      /\ result (WebDriverFactory.__get_options cfg) Sample.linux
         = inr options
      /\ result (WebDriverFactory.__init_service cfg) Sample.linux
         = inr serviced
      /\ sessions (events (WebDriverFactory.__init__
                             (Some "chrome") true (Some "http://grid:4444")
                             (Some "env.json"))
                          Sample.linux)
         = [NewRemote (Some "http://grid:4444") options])
  /\ (exists options service,
        sessions (events (WebDriverFactory.__init__
                            (Some "chrome") false None None)
                         Sample.linux)
        = [NewLocal "chrome" options service]).
Proof.
  split.
  - destruct (@one_session_per_construction
                Sample.linux (Some "chrome") true (Some "http://grid:4444")
                (Some "env.json") _ _ eq_refl)
      as (cfg & options & serviced & Hcfg & Hopt & Hsvc & Hs & _).
    exists cfg, options, serviced.
    split; [exact Hcfg | split; [exact Hopt | split; [exact Hsvc |]]].
    exact Hs.
  - destruct (@one_session_per_construction
                Sample.linux (Some "chrome") false None None _ _ eq_refl)
      as (cfg & options & serviced & _ & _ & _ & b & Hb & Hs & _).
    injection Hb as <-.
    exists options, (WebDriverFactory.__service serviced). exact Hs.
Defined.

(** The scenario of [test_example.py]: [WebDriverFactory(browser="chrome")]
    starts one local Chrome session, and [quit_webdriver] on it returns. *)
Example chrome_local_session :
  run (WebDriverFactory.__init__ (Some "chrome") false None None) Sample.linux
  = (inr Sample.chrome_factory,
     [DriverManagerInstall "chrome"; NewService "chrome";
      NewLocal "chrome" (Some (mkOptions "chrome" [] []))
               (Some (mkService "chrome" (Some "/wdm/chrome")))])
  /\ run (WebDriverFactory.quit_webdriver Sample.chrome_factory) Sample.linux
     = (inr tt, [Quit Sample.chrome_driver]).
Proof. split; reflexivity. Qed.

(** * Further properties of the code *)

(** ** ConfigStore *)

(** X1.  On a loaded document whose [devices] entry is a mapping, the lookup
    with no browser name (absent or empty) and a non-empty device name returns
    [devices[dev]] when [dev] is a key of it and the empty mapping
    otherwise. *)
Theorem get_config_data_device w self d ds browser dev :
  Config.__config_data self = JObj d ->
  lookup "devices" d = Some (JObj ds) ->
  truthy_str browser = false ->
  dev <> "" ->
  result (Config.get_config_data self browser (Some dev)) w
  = inr (match lookup dev ds with
         | Some section => section
         | None => JObj []
         end).
Proof.
  intros Hd Hds Hb Hdev. unfold result, run, Config.get_config_data.
  rewrite Hb, (truthy_str_Some Hdev), Hd.
  unfold bind, lift, method_get, dict_get. rewrite Hds. reflexivity.
Qed.

Lemma get_config_data_device_witness :
  result (Config.get_config_data (Config.mk "env.json" Sample.document)
                                 None (Some "pixel")) Sample.linux
  = inr (JObj [("w", JNum 412)])
  /\ result (Config.get_config_data (Config.mk "env.json" Sample.document)
                                    (Some "") (Some "tablet")) Sample.linux
     = inr (JObj []).
Proof.
  split.
  - exact (@get_config_data_device
             Sample.linux (Config.mk "env.json" Sample.document)
             Sample.document_items [("pixel", JObj [("w", JNum 412)])]
             None "pixel" eq_refl eq_refl eq_refl ltac:(discriminate)).
  - exact (@get_config_data_device
             Sample.linux (Config.mk "env.json" Sample.document)
             Sample.document_items [("pixel", JObj [("w", JNum 412)])]
             (Some "") "tablet" eq_refl eq_refl eq_refl ltac:(discriminate)).
Defined.





(** X4.  [Config(path)] never lets an I/O or decoding error through as it
    is: every failure is a [PyTestFlowException] whose cause is the original
    exception; for a missing file its message ends with the path that was
    tried, and otherwise with the text of the original exception. *)
Theorem config_init_failure w test_config_path e :
  let path := if truthy_str test_config_path
              then str_of test_config_path
              else "test_environment.json" in
  result (Config.__init__ test_config_path) w = inl e ->
  exn_cls e = PyTestFlowException
  /\ exists cause,
      open_json_load w path = inl cause
      /\ exn_cause e = Some cause
      /\ exn_str e
         = if Config.is_FileNotFoundError cause
           then "Test config data file path not found. Please verify the correct path location.Path provided is: "
                ++ path
           else "Error in opening test config data file. Original Error: "
                ++ exn_str cause.
Proof.
  intros path.
  unfold result, run, Config.__init__, Config.__load_test_config_data,
    try_except, bind, call_value. fold path. simpl.
  destruct (open_json_load w path) as [cause | doc]; simpl; [| discriminate].
  destruct (Config.is_FileNotFoundError cause) eqn:Hnf; simpl;
    intros [= <-]; (split; [reflexivity |]); exists cause;
    rewrite ?Hnf; repeat split.
Qed.

Lemma config_init_failure_witness :
  (exn_cls (Exn PyTestFlowException
                "Error in opening test config data file. Original Error: Expecting value: line 1 column 1 (char 0)"
                (Some Sample.not_json))
   = PyTestFlowException
   /\ exists cause,
       open_json_load Sample.garbled "env.json" = inl cause
       /\ Some Sample.not_json = Some cause
       /\ "Error in opening test config data file. Original Error: Expecting value: line 1 column 1 (char 0)"
          = if Config.is_FileNotFoundError cause
            then "Test config data file path not found. Please verify the correct path location.Path provided is: "
                 ++ "env.json"
            else "Error in opening test config data file. Original Error: "
                 ++ exn_str cause).
Proof.
  exact (@config_init_failure
           Sample.garbled (Some "env.json")
           (Exn PyTestFlowException
                "Error in opening test config data file. Original Error: Expecting value: line 1 column 1 (char 0)"
                (Some Sample.not_json))
           eq_refl).
Defined.

(** ** Driver service *)



(** X6.  For a supported browser, a service set-up that returns has built
    the service of that browser: for Safari without consulting the driver
    manager and with no executable path, for the others after one download
    and with the path the driver manager returned.  Nothing else of the
    factory changes. *)
Theorem init_service_success w self b serviced :
  WebDriverFactory.__browser self = Some b ->
  In b WebDriverFactory.__SUPPORTED_BROWSERS ->
  result (WebDriverFactory.__init_service self) w = inr serviced ->
  if String.eqb b "safari"
  then serviced
       = WebDriverFactory.set_service self (Some (mkService "safari" None))
       /\ events (WebDriverFactory.__init_service self) w
          = [NewService "safari"]
  else exists path,
      driver_manager_install w b = inr path
      /\ serviced
         = WebDriverFactory.set_service self (Some (mkService b (Some path)))
      /\ events (WebDriverFactory.__init_service self) w
         = [DriverManagerInstall b; NewService b].
Proof.
  intros Hb Hin.
  unfold result, events, run, WebDriverFactory.__init_service, try_except,
    WebDriverFactory.managed_service, bind, call_value, emit, ret, raise.
  rewrite Hb. apply supported_cases in Hin.
  destruct Hin as [-> | [-> | [-> | ->]]]; simpl;
    try (intros [= <-]; split; reflexivity);
    match goal with
    | |- context [driver_manager_install w ?b] =>
        destruct (driver_manager_install w b) as [cause | path]; simpl;
        [discriminate | intros [= <-]; exists path; repeat split]
    end.
Qed.

Lemma init_service_success_witness :
  (WebDriverFactory.set_service (Sample.configured "safari" (JObj []))
                                (Some (mkService "safari" None))
   = WebDriverFactory.set_service (Sample.configured "safari" (JObj []))
                                  (Some (mkService "safari" None))
   /\ events (WebDriverFactory.__init_service
                (Sample.configured "safari" (JObj []))) Sample.offline
      = [NewService "safari"])
  /\ exists path,
      driver_manager_install Sample.linux "edge" = inr path
      /\ WebDriverFactory.set_service (Sample.configured "edge" (JObj []))
                                      (Some (mkService "edge"
                                                       (Some "/wdm/edge")))
         = WebDriverFactory.set_service
             (Sample.configured "edge" (JObj []))
             (Some (mkService "edge" (Some path)))
      /\ events (WebDriverFactory.__init_service
                   (Sample.configured "edge" (JObj []))) Sample.linux
         = [DriverManagerInstall "edge"; NewService "edge"].
Proof.
  split.
  - exact (@init_service_success
             Sample.offline (Sample.configured "safari" (JObj [])) "safari"
             _ eq_refl ltac:(simpl; tauto) eq_refl).
  - exact (@init_service_success
             Sample.linux (Sample.configured "edge" (JObj [])) "edge"
             _ eq_refl ltac:(simpl; tauto) eq_refl).
Defined.

(** ** Options resolution, continued *)

Lemma lookup_None_not_In k (d : dict) :
  lookup k d = None -> ~ In k (map fst d).
Proof.
  induction d as [| [k' v'] d IH]; simpl; [tauto |].
  destruct (String.eqb_spec k k') as [-> | Hne]; [discriminate |].
  intros Hk [Heq | Hin]; [congruence | exact (IH Hk Hin)].
Qed.

(** Setting every item of [items] on [caps]: the items win, the rest of
    [caps] stays. *)
Lemma lookup_set_all k items caps :
  NoDup (map fst items) ->
  lookup k (set_all items caps)
  = match lookup k items with
    | Some v => Some v
    | None => lookup k caps
    end.
Proof.
  intros Hnd. destruct (lookup k items) as [v |] eqn:Hk.
  - apply lookup_set_all_present; assumption.
  - apply lookup_set_all_absent, lookup_None_not_In, Hk.
Qed.

(** [get_options_resolved] for launch arguments given as any iterable. *)
Lemma get_options_iterated w self b d xs :
  WebDriverFactory.__browser self = Some b ->
  In b WebDriverFactory.__SUPPORTED_BROWSERS ->
  WebDriverFactory.__config_data self = JObj d ->
  iterate (dict_get "args" (JList []) d) = inr xs ->
  forallb truthy xs = true ->
  run (WebDriverFactory.__get_options self) w
  = (inr (Some (mkOptions b xs (set_all d (default_capabilities w b)))), []).
Proof.
  intros Hb Hin Hd Hiter Hxs.
  unfold run, WebDriverFactory.__get_options. rewrite Hb, Hd.
  unfold bind at 1. unfold lift at 1. simpl method_get.
  unfold bind at 1. unfold ask at 1.
  unfold bind at 1. unfold lift at 1. rewrite Hiter.
  unfold bind at 1.
  apply supported_cases in Hin.
  destruct Hin as [-> | [-> | [-> | ->]]]; simpl WebDriverFactory.str_eq;
    cbv iota; unfold WebDriverFactory.new_options;
    rewrite for_in_add_argument by exact Hxs;
    unfold bind at 1; unfold lift at 1; simpl method_items;
    unfold bind at 1; rewrite for_in_set_capability; reflexivity.
Qed.

(** X7.  For a supported browser and a configuration with distinct keys
    whose launch arguments are a list of non-empty values, the options object
    is of the browser's class, and its capabilities are the constructor's
    defaults overridden by the configuration: a key of the configuration has
    the configured value, any other key keeps its default. *)
Theorem get_options_capabilities w self b d l :
  WebDriverFactory.__browser self = Some b ->
  In b WebDriverFactory.__SUPPORTED_BROWSERS ->
  WebDriverFactory.__config_data self = JObj d ->
  NoDup (map fst d) ->
  dict_get "args" (JList []) d = JList l ->
  forallb truthy l = true ->
  exists o,
    result (WebDriverFactory.__get_options self) w = inr (Some o)
    /\ options_class o = b
    /\ arguments o = l
    /\ forall k,
        lookup k (capabilities o)
        = match lookup k d with
          | Some v => Some v
          | None => lookup k (default_capabilities w b)
          end.
Proof.
  intros Hb Hin Hd Hnd Hargs Hl.
  exists (mkOptions b l (set_all d (default_capabilities w b))).
  split; [| split; [| split]]; try reflexivity.
  - unfold result.
    rewrite (@get_options_iterated w self b d l); try assumption.
    + reflexivity.
    + rewrite Hargs. reflexivity.
  - intros k. simpl. apply lookup_set_all. exact Hnd.
Qed.

Lemma get_options_capabilities_witness :
  exists o,
    result (WebDriverFactory.__get_options
              (Sample.configured "firefox"
                                 (JObj [("pageLoadStrategy", JStr "eager")])))
           Sample.selenium
    = inr (Some o)
    /\ options_class o = "firefox"
    /\ arguments o = []
    /\ forall k,
        lookup k (capabilities o)
        = match lookup k [("pageLoadStrategy", JStr "eager")] with
          | Some v => Some v
          | None => lookup k (Sample.w3c_defaults "firefox")
          end.
Proof.
  apply (@get_options_capabilities
           Sample.selenium
           (Sample.configured "firefox"
                              (JObj [("pageLoadStrategy", JStr "eager")]))
           "firefox" [("pageLoadStrategy", JStr "eager")] []).
  - reflexivity.
  - simpl. tauto.
  - reflexivity.
  - repeat constructor; simpl; tauto.
  - reflexivity.
  - reflexivity.
Defined.

Lemma chars_truthy s : forallb truthy (chars s) = true.
Proof. induction s as [| c s IH]; simpl; [reflexivity | exact IH]. Qed.

(** X8.  Launch arguments configured as one string instead of a list are
    not passed as one argument: the string is iterated, and each of its
    characters becomes a launch argument of its own. *)
Theorem get_options_string_args w self b d s :
  WebDriverFactory.__browser self = Some b ->
  In b WebDriverFactory.__SUPPORTED_BROWSERS ->
  WebDriverFactory.__config_data self = JObj d ->
  lookup "args" d = Some (JStr s) ->
  exists o,
    result (WebDriverFactory.__get_options self) w = inr (Some o)
    /\ arguments o = chars s
    /\ length (arguments o) = String.length s.
Proof.
  intros Hb Hin Hd Hargs.
  exists (mkOptions b (chars s) (set_all d (default_capabilities w b))).
  split; [| split].
  - unfold result.
    rewrite (@get_options_iterated w self b d (chars s)); try assumption.
    + reflexivity.
    + unfold dict_get. rewrite Hargs. reflexivity.
    + apply chars_truthy.
  - reflexivity.
  - simpl. clear. induction s as [| c s IH]; simpl; congruence.
Qed.

Lemma get_options_string_args_witness :
  exists o,
    result (WebDriverFactory.__get_options
              (Sample.configured "chrome" (JObj [("args", JStr "-h")])))
           Sample.linux
    = inr (Some o)
    /\ arguments o = [JStr "-"; JStr "h"]
    /\ length (arguments o) = 2.
Proof.
  apply (@get_options_string_args
           Sample.linux
           (Sample.configured "chrome" (JObj [("args", JStr "-h")]))
           "chrome" [("args", JStr "-h")] "-h").
  - reflexivity.
  - simpl. tauto.
  - reflexivity.
  - reflexivity.
Defined.

Lemma for_in_add_argument_null cls caps w t pre a post (args : list json) :
  forallb truthy pre = true ->
  truthy a = false ->
  for_in (pre ++ a :: post) WebDriverFactory.add_argument
         (Some (mkOptions cls args caps)) w t
  = (inl (Exn ValueError "argument can not be null" None), t).
Proof.
  revert args. induction pre as [| x pre IH]; intros args Hpre Ha; simpl.
  - unfold bind, WebDriverFactory.add_argument. rewrite Ha. reflexivity.
  - simpl in Hpre. apply andb_prop in Hpre as [Hx Hpre].
    unfold bind, WebDriverFactory.add_argument at 1. rewrite Hx. simpl.
    apply IH; assumption.
Qed.

(** X9.  An empty (falsy) entry in the list of launch arguments makes
    options resolution fail with [ValueError] at that entry; no options
    object is returned, whatever follows in the list. *)
Theorem get_options_null_argument w self b d pre a post :
  WebDriverFactory.__browser self = Some b ->
  In b WebDriverFactory.__SUPPORTED_BROWSERS ->
  WebDriverFactory.__config_data self = JObj d ->
  lookup "args" d = Some (JList (pre ++ a :: post)) ->
  forallb truthy pre = true ->
  truthy a = false ->
  run (WebDriverFactory.__get_options self) w
  = (inl (Exn ValueError "argument can not be null" None), []).
Proof.
  intros Hb Hin Hd Hargs Hpre Ha.
  unfold run, WebDriverFactory.__get_options. rewrite Hb, Hd.
  unfold bind at 1. unfold lift at 1. simpl method_get.
  unfold dict_get. rewrite Hargs.
  unfold bind at 1. unfold ask at 1.
  unfold bind at 1. unfold lift at 1. simpl iterate.
  unfold bind at 1.
  apply supported_cases in Hin.
  destruct Hin as [-> | [-> | [-> | ->]]]; simpl WebDriverFactory.str_eq;
    cbv iota; unfold WebDriverFactory.new_options;
    rewrite for_in_add_argument_null by assumption; reflexivity.
Qed.

Lemma get_options_null_argument_witness :
  run (WebDriverFactory.__get_options
         (Sample.configured
            "edge"
            (JObj [("args", JList [JStr "--headless"; JStr ""; JStr "-x"])])))
      Sample.linux
  = (inl (Exn ValueError "argument can not be null" None), []).
Proof.
  apply (@get_options_null_argument
           Sample.linux
           (Sample.configured
              "edge"
              (JObj [("args", JList [JStr "--headless"; JStr ""; JStr "-x"])]))
           "edge" [("args", JList [JStr "--headless"; JStr ""; JStr "-x"])]
           [JStr "--headless"] (JStr "") [JStr "-x"]);
    solve [reflexivity | simpl; tauto].
Defined.

(** X10.  Launch arguments configured as [null], a boolean or a number
    make options resolution fail with [TypeError] ("object is not iterable"),
    for every browser name, before any argument or capability is set. *)
Theorem get_options_args_not_iterable w self d v :
  WebDriverFactory.__config_data self = JObj d ->
  lookup "args" d = Some v ->
  (v = JNull \/ (exists b, v = JBool b) \/ (exists n, v = JNum n)) ->
  run (WebDriverFactory.__get_options self) w
  = (inl (Exn TypeError ("'" ++ type_name v ++ "' object is not iterable")
              None),
     []).
Proof.
  intros Hd Hargs Hv.
  unfold run, WebDriverFactory.__get_options. rewrite Hd.
  unfold bind, lift, ask. simpl method_get. unfold dict_get. rewrite Hargs.
  destruct Hv as [-> | [[b ->] | [n ->]]]; reflexivity.
Qed.

Lemma get_options_args_not_iterable_witness :
  run (WebDriverFactory.__get_options
         (Sample.configured "chrome" (JObj [("args", JNull)])))
      Sample.linux
  = (inl (Exn TypeError "'NoneType' object is not iterable" None), []).
Proof.
  apply (@get_options_args_not_iterable
           Sample.linux (Sample.configured "chrome" (JObj [("args", JNull)]))
           [("args", JNull)] JNull);
    [reflexivity | reflexivity | left; reflexivity].
Defined.

(** ** Session creation, continued *)

(** The remote branch of [__set_webdriver], run forward. *)
Lemma set_webdriver_remote_run self w :
  WebDriverFactory.__remote self
  && truthy_str (WebDriverFactory.__grid_url self) = true ->
  run (WebDriverFactory.__set_webdriver self) w
  = match result (WebDriverFactory.__get_options self) w with
    | inl e => (inl e, [])
    | inr options =>
        let ev := events (WebDriverFactory.__init_service self) w in
        let url := WebDriverFactory.__grid_url self in
        match result (WebDriverFactory.__init_service self) w with
        | inl e => (inl e, ev)
        | inr serviced =>
            match remote_session w url options with
            | Some e =>
                (inl (raise_PyTestFlowException
                        (if WebDriverFactory.is_WebDriverException e
                         then "WebDriverException Encountered while creating remote webdriver for "
                              ++ str_of (WebDriverFactory.__browser self)
                              ++ " Original Error: " ++ exn_str e
                         else "An Exception is encountered while creating remote webdriver for "
                              ++ str_of (WebDriverFactory.__browser self)
                              ++ "Original Error: " ++ exn_str e)
                        (Some e)),
                 (ev ++ [NewRemote url options])%list)
            | None =>
                (inr (WebDriverFactory.set_driver
                        serviced (Some (Remote url options))),
                 (ev ++ [NewRemote url options])%list)
            end
        end
    end.
Proof.
  intros Hremote. unfold run, WebDriverFactory.__set_webdriver.
  rewrite Hremote. unfold WebDriverFactory.__create_remote_driver.
  unfold bind at 1. unfold bind at 1.
  pose proof (get_options_events self w) as Hquiet.
  unfold events, run in Hquiet. unfold result at 1, run.
  destruct (WebDriverFactory.__get_options self w []) as [[e | options] t1];
    simpl in Hquiet; subst t1; [reflexivity |].
  unfold bind at 1. rewrite (framed_init_service self w []).
  fold (run (WebDriverFactory.__init_service self) w).
  fold (result (WebDriverFactory.__init_service self) w).
  fold (events (WebDriverFactory.__init_service self) w).
  cbv zeta.
  destruct (result (WebDriverFactory.__init_service self) w)
    as [e | serviced] eqn:Hsvc; [reflexivity |].
  destruct (init_service_result self w Hsvc) as [s ->].
  unfold bind, try_except, call. simpl.
  destruct (remote_session w (WebDriverFactory.__grid_url self) options)
    as [e |]; simpl; [| reflexivity].
  destruct (WebDriverFactory.is_WebDriverException e); reflexivity.
Qed.

(** The local branch of [__set_webdriver] for a supported browser, run
    forward. *)
Lemma set_webdriver_local_run self w b :
  WebDriverFactory.__remote self
  && truthy_str (WebDriverFactory.__grid_url self) = false ->
  WebDriverFactory.__browser self = Some b ->
  In b WebDriverFactory.__SUPPORTED_BROWSERS ->
  run (WebDriverFactory.__set_webdriver self) w
  = match result (WebDriverFactory.__get_options self) w with
    | inl e => (inl e, [])
    | inr options =>
        let ev := events (WebDriverFactory.__init_service self) w in
        match result (WebDriverFactory.__init_service self) w with
        | inl e => (inl e, ev)
        | inr serviced =>
            let service := WebDriverFactory.__service serviced in
            match local_session w b options service with
            | Some e => (inl e, (ev ++ [NewLocal b options service])%list)
            | None =>
                (inr (WebDriverFactory.set_driver
                        serviced (Some (Local b options service))),
                 (ev ++ [NewLocal b options service])%list)
            end
        end
    end.
Proof.
  intros Hlocal Hb Hin. unfold run, WebDriverFactory.__set_webdriver.
  rewrite Hlocal. unfold WebDriverFactory.__create_local_driver.
  unfold bind at 1. unfold bind at 1.
  pose proof (get_options_events self w) as Hquiet.
  unfold events, run in Hquiet. unfold result at 1, run.
  destruct (WebDriverFactory.__get_options self w []) as [[e | options] t1];
    simpl in Hquiet; subst t1; [reflexivity |].
  unfold bind at 1. rewrite (framed_init_service self w []).
  fold (run (WebDriverFactory.__init_service self) w).
  fold (result (WebDriverFactory.__init_service self) w).
  fold (events (WebDriverFactory.__init_service self) w).
  cbv zeta.
  destruct (result (WebDriverFactory.__init_service self) w)
    as [e | serviced] eqn:Hsvc; [reflexivity |].
  destruct (init_service_result self w Hsvc) as [s ->].
  unfold WebDriverFactory.local_webdriver, bind, call. simpl.
  rewrite Hb. apply supported_cases in Hin.
  destruct Hin as [-> | [-> | [-> | ->]]]; simpl;
    match goal with
    | |- context [local_session w ?b options s] =>
        destruct (local_session w b options s); reflexivity
    end.
Qed.

Lemma str_in_true x names :
  WebDriverFactory.str_in x names = true ->
  exists b, x = Some b /\ In b names.
Proof.
  unfold WebDriverFactory.str_in. intros H.
  apply existsb_exists in H as (b & Hin & Heq).
  exists b. split; [apply str_eq_true, Heq | exact Hin].
Qed.

Lemma managed_supported b :
  In b ["chrome"; "firefox"; "edge"] ->
  In b WebDriverFactory.__SUPPORTED_BROWSERS /\ b <> "safari" /\ b <> "".
Proof.
  simpl. intros [<- | [<- | [<- | []]]];
    (split; [tauto | split; discriminate]).
Qed.

(** Service set-up for a browser whose driver is downloaded. *)
Lemma init_service_managed_run self w b :
  WebDriverFactory.__browser self = Some b ->
  In b ["chrome"; "firefox"; "edge"] ->
  run (WebDriverFactory.__init_service self) w
  = match driver_manager_install w b with
    | inl cause =>
        (inl (raise_PyTestFlowException
                ("An Error encountered while initializing service for " ++ b
                 ++ " browser.Original Exception is: " ++ exn_str cause)
                (Some cause)),
         [DriverManagerInstall b])
    | inr path =>
        (inr (WebDriverFactory.set_service
                self (Some (mkService b (Some path)))),
         [DriverManagerInstall b; NewService b])
    end.
Proof.
  intros Hb Hin.
  unfold run, WebDriverFactory.__init_service, try_except,
    WebDriverFactory.managed_service, bind, call_value, emit, ret, raise.
  rewrite Hb. simpl in Hin.
  destruct Hin as [<- | [<- | [<- | []]]]; simpl;
    match goal with
    | |- context [driver_manager_install w ?b] =>
        destruct (driver_manager_install w b); reflexivity
    end.
Qed.

(** For a supported browser a service set-up that returns has stored a
    service of that browser. *)
Lemma init_service_some self w b serviced :
  WebDriverFactory.__browser self = Some b ->
  In b WebDriverFactory.__SUPPORTED_BROWSERS ->
  result (WebDriverFactory.__init_service self) w = inr serviced ->
  exists s,
    serviced = WebDriverFactory.set_service self (Some s)
    /\ service_class s = b.
Proof.
  intros Hb Hin.
  unfold result, run, WebDriverFactory.__init_service, try_except,
    WebDriverFactory.managed_service, bind, call_value, emit, ret, raise.
  rewrite Hb. apply supported_cases in Hin.
  destruct Hin as [-> | [-> | [-> | ->]]]; simpl;
    try (intros [= <-]; eexists; split; reflexivity);
    match goal with
    | |- context [driver_manager_install w ?b] =>
        destruct (driver_manager_install w b) as [cause | path]; simpl;
        [discriminate | intros [= <-]; eexists; split; reflexivity]
    end.
Qed.

Lemma for_in_add_argument_some w xs o t r t' :
  for_in xs WebDriverFactory.add_argument (Some o) w t = (inr r, t') ->
  exists o', r = Some o' /\ options_class o' = options_class o.
Proof.
  revert o t. induction xs as [| x xs IH]; intros o t; simpl.
  - intros [= <- _]. exists o. split; reflexivity.
  - unfold bind, WebDriverFactory.add_argument at 1.
    destruct (truthy x); simpl; [| discriminate].
    intros H. apply IH in H. exact H.
Qed.

Lemma for_in_set_capability_some w xs o t r t' :
  for_in xs WebDriverFactory.set_capability (Some o) w t = (inr r, t') ->
  exists o', r = Some o' /\ options_class o' = options_class o.
Proof.
  revert o t. induction xs as [| x xs IH]; intros o t; simpl.
  - intros [= <- _]. exists o. split; reflexivity.
  - unfold bind. simpl. intros H. apply IH in H. exact H.
Qed.

(** For a supported browser, options resolution that returns has returned
    an options object of that browser's class, never [None]. *)
Lemma get_options_some self w b options :
  WebDriverFactory.__browser self = Some b ->
  In b WebDriverFactory.__SUPPORTED_BROWSERS ->
  result (WebDriverFactory.__get_options self) w = inr options ->
  exists o, options = Some o /\ options_class o = b.
Proof.
  intros Hb Hin.
  unfold result, run, WebDriverFactory.__get_options. rewrite Hb.
  unfold bind at 1. unfold lift at 1.
  destruct (method_get _ _ _) as [e | args]; [discriminate |].
  unfold bind at 1. unfold ask at 1.
  unfold bind at 1. unfold lift at 1.
  destruct (iterate args) as [e | xs]; [discriminate |].
  unfold bind at 1.
  assert (Hnew : exists o0,
             (if WebDriverFactory.str_eq (Some b) "chrome"
              then Some (WebDriverFactory.new_options w "chrome")
              else if WebDriverFactory.str_eq (Some b) "firefox"
              then Some (WebDriverFactory.new_options w "firefox")
              else if WebDriverFactory.str_eq (Some b) "edge"
              then Some (WebDriverFactory.new_options w "edge")
              else if WebDriverFactory.str_eq (Some b) "safari"
              then Some (WebDriverFactory.new_options w "safari")
              else None) = Some o0 /\ options_class o0 = b).
  { apply supported_cases in Hin.
    destruct Hin as [-> | [-> | [-> | ->]]]; simpl;
      eexists; split; reflexivity. }
  destruct Hnew as (o0 & -> & Hclass).
  destruct (for_in xs WebDriverFactory.add_argument (Some o0) w [])
    as [[e | r1] t1] eqn:Hadd; [discriminate |].
  apply for_in_add_argument_some in Hadd as (o1 & -> & Hc1).
  unfold bind at 1. unfold lift at 1.
  destruct (method_items _) as [e | items]; [discriminate |].
  unfold bind at 1.
  destruct (for_in items WebDriverFactory.set_capability (Some o1) w t1)
    as [[e | r2] t2] eqn:Hset; [discriminate |].
  apply for_in_set_capability_some in Hset as (o2 & -> & Hc2).
  simpl. intros [= <-]. exists o2. split; [reflexivity | congruence].
Qed.

(** X11.  When the grid refuses the session, [__set_webdriver] fails with a
    [PyTestFlowException] whose cause is the grid's exception; the one
    session call made is the refused one. *)
Theorem remote_session_failure_is_wrapped w self options serviced e :
  WebDriverFactory.__remote self
  && truthy_str (WebDriverFactory.__grid_url self) = true ->
  result (WebDriverFactory.__get_options self) w = inr options ->
  result (WebDriverFactory.__init_service self) w = inr serviced ->
  remote_session w (WebDriverFactory.__grid_url self) options = Some e ->
  exists ex,
    result (WebDriverFactory.__set_webdriver self) w = inl ex
    /\ exn_cls ex = PyTestFlowException
    /\ exn_cause ex = Some e
    /\ sessions (events (WebDriverFactory.__set_webdriver self) w)
       = [NewRemote (WebDriverFactory.__grid_url self) options].
Proof.
  intros Hremote Hopt Hsvc Hfail.
  unfold result at 1, events at 1.
  rewrite (set_webdriver_remote_run self w Hremote), Hopt. cbv zeta.
  rewrite Hsvc, Hfail. eexists. simpl. repeat split.
  unfold sessions. rewrite filter_app.
  pose proof (init_service_quiet self w) as Hq. unfold sessions in Hq.
  rewrite Hq. reflexivity.
Qed.

Lemma remote_session_failure_is_wrapped_witness :
  exists ex,
    result (WebDriverFactory.__set_webdriver
              (WebDriverFactory.mk (Some "chrome") true
                                   (Some "http://grid:4444") None None
                                   (JObj [])))
           Sample.sessionless
    = inl ex
    /\ exn_cls ex = PyTestFlowException
    /\ exn_cause ex = Some Sample.session_not_created
    /\ sessions (events (WebDriverFactory.__set_webdriver
                           (WebDriverFactory.mk (Some "chrome") true
                                                (Some "http://grid:4444")
                                                None None (JObj [])))
                        Sample.sessionless)
       = [NewRemote (Some "http://grid:4444")
                    (Some (mkOptions "chrome" [] []))].
Proof.
  exact (@remote_session_failure_is_wrapped
           Sample.sessionless
           (WebDriverFactory.mk (Some "chrome") true (Some "http://grid:4444")
                                None None (JObj []))
           (Some (mkOptions "chrome" [] [])) _ Sample.session_not_created
           eq_refl eq_refl eq_refl eq_refl).
Defined.

(** X12.  When starting the local browser fails, [__set_webdriver] fails
    with the very exception selenium raised: unlike a remote failure it is
    not wrapped into a [PyTestFlowException]. *)
Theorem local_session_failure_is_raw w self b options serviced e :
  WebDriverFactory.__remote self
  && truthy_str (WebDriverFactory.__grid_url self) = false ->
  WebDriverFactory.__browser self = Some b ->
  In b WebDriverFactory.__SUPPORTED_BROWSERS ->
  result (WebDriverFactory.__get_options self) w = inr options ->
  result (WebDriverFactory.__init_service self) w = inr serviced ->
  local_session w b options (WebDriverFactory.__service serviced) = Some e ->
  result (WebDriverFactory.__set_webdriver self) w = inl e.
Proof.
  intros Hlocal Hb Hin Hopt Hsvc Hfail. unfold result at 1.
  rewrite (set_webdriver_local_run self w Hlocal Hb Hin), Hopt. cbv zeta.
  rewrite Hsvc, Hfail. reflexivity.
Qed.

Lemma local_session_failure_is_raw_witness :
  result (WebDriverFactory.__set_webdriver
            (Sample.configured "chrome" (JObj []))) Sample.sessionless
  = inl (Exn WebDriverException "Message: session not created" None).
Proof.
  exact (@local_session_failure_is_raw
           Sample.sessionless (Sample.configured "chrome" (JObj []))
           "chrome" (Some (mkOptions "chrome" [] [])) _
           Sample.session_not_created
           eq_refl eq_refl ltac:(simpl; tauto) eq_refl eq_refl eq_refl).
Defined.

(** X13.  A failed driver download aborts session creation before any
    session call, for a remote session as for a local one: although a remote
    session does not use the local driver, the grid is not contacted. *)
Theorem driver_download_failure_aborts w self b options cause :
  WebDriverFactory.__browser self = Some b ->
  In b ["chrome"; "firefox"; "edge"] ->
  result (WebDriverFactory.__get_options self) w = inr options ->
  driver_manager_install w b = inl cause ->
  run (WebDriverFactory.__set_webdriver self) w
  = (inl (raise_PyTestFlowException
            ("An Error encountered while initializing service for " ++ b
             ++ " browser.Original Exception is: " ++ exn_str cause)
            (Some cause)),
     [DriverManagerInstall b]).
Proof.
  intros Hb Hin Hopt Hfail.
  pose proof (init_service_managed_run self w Hb Hin) as Hsvc.
  rewrite Hfail in Hsvc.
  destruct (WebDriverFactory.__remote self
            && truthy_str (WebDriverFactory.__grid_url self)) eqn:Hremote.
  - rewrite (set_webdriver_remote_run self w Hremote), Hopt. cbv zeta.
    unfold result, events. rewrite Hsvc. reflexivity.
  - rewrite (set_webdriver_local_run self w Hremote Hb
                                     (proj1 (managed_supported Hin))), Hopt.
    cbv zeta. unfold result, events. rewrite Hsvc. reflexivity.
Qed.

Lemma driver_download_failure_aborts_witness :
  run (WebDriverFactory.__set_webdriver
         (WebDriverFactory.mk (Some "edge") true (Some "http://grid:4444")
                              None None (JObj [])))
      Sample.offline
  = (inl (Exn PyTestFlowException
              "An Error encountered while initializing service for edge browser.Original Exception is: Could not reach host. Are you offline?"
              (Some Sample.download_failed)),
     [DriverManagerInstall "edge"]).
Proof.
  exact (@driver_download_failure_aborts
           Sample.offline
           (WebDriverFactory.mk (Some "edge") true (Some "http://grid:4444")
                                None None (JObj []))
           "edge" (Some (mkOptions "edge" [] [])) Sample.download_failed
           eq_refl ltac:(simpl; tauto) eq_refl eq_refl).
Defined.

(** X14.  What a successful construction leaves behind: the browser is one
    of the supported ones, the factory holds a service of that browser and a
    session handle (never [None]) whose options object is of that browser's
    class (never [None]); the handle is the remote one exactly when the
    remote flag and a non-empty grid URL were given; browser, flag and URL
    are stored unchanged. *)
Theorem constructed_factory_invariant
        w browser remote grid_url test_config_path self tr :
  run (WebDriverFactory.__init__ browser remote grid_url test_config_path) w
  = (inr self, tr) ->
  exists b o s,
    browser = Some b
    /\ In b WebDriverFactory.__SUPPORTED_BROWSERS
    /\ options_class o = b
    /\ service_class s = b
    /\ WebDriverFactory.__service self = Some s
    /\ WebDriverFactory.get_webdriver self
       = Some (if remote && truthy_str grid_url
               then Remote grid_url (Some o)
               else Local b (Some o) (Some s))
    /\ WebDriverFactory.__browser self = browser
    /\ WebDriverFactory.__remote self = remote
    /\ WebDriverFactory.__grid_url self = grid_url.
Proof.
  intros Hrun. rewrite init_run in Hrun.
  destruct (run (WebDriverFactory.resolve_config _ test_config_path) w)
    as [[e | cfg] t0] eqn:Hcfg; [discriminate |].
  destruct (String.eqb (platform_system w) "Windows"
            && WebDriverFactory.str_eq browser "safari"); [discriminate |].
  destruct (WebDriverFactory.str_in
              browser WebDriverFactory.__SUPPORTED_BROWSERS) eqn:Hin;
    [| discriminate].
  simpl in Hrun. injection Hrun as Hres _.
  apply str_in_true in Hin as (b & -> & Hin).
  destruct (@resolve_config_result
              (WebDriverFactory.mk (Some b) remote grid_url None None
                                   (JObj []))
              test_config_path w cfg) as [data ->];
    [unfold result; rewrite Hcfg; reflexivity |].
  set (cfg := WebDriverFactory.set_config_data _ data) in *.
  assert (Hb : WebDriverFactory.__browser cfg = Some b) by reflexivity.
  unfold result in Hres.
  destruct (remote && truthy_str grid_url) eqn:Hremote.
  - rewrite (set_webdriver_remote_run cfg w Hremote) in Hres.
    destruct (result (WebDriverFactory.__get_options cfg) w)
      as [e | options] eqn:Hopt; [discriminate |].
    cbv zeta in Hres.
    destruct (result (WebDriverFactory.__init_service cfg) w)
      as [e | serviced] eqn:Hsvc; [discriminate |].
    destruct (remote_session w _ options); [discriminate |].
    simpl in Hres. injection Hres as <-.
    destruct (get_options_some cfg w Hb Hin Hopt) as (o & -> & Ho).
    destruct (init_service_some cfg w Hb Hin Hsvc) as (s & -> & Hs).
    exists b, o, s. repeat split; assumption.
  - rewrite (set_webdriver_local_run cfg w Hremote Hb Hin) in Hres.
    destruct (result (WebDriverFactory.__get_options cfg) w)
      as [e | options] eqn:Hopt; [discriminate |].
    cbv zeta in Hres.
    destruct (result (WebDriverFactory.__init_service cfg) w)
      as [e | serviced] eqn:Hsvc; [discriminate |].
    destruct (local_session w b options _); [discriminate |].
    simpl in Hres. injection Hres as <-.
    destruct (get_options_some cfg w Hb Hin Hopt) as (o & -> & Ho).
    destruct (init_service_some cfg w Hb Hin Hsvc) as (s & -> & Hs).
    exists b, o, s. repeat split; assumption.
Qed.

Lemma constructed_factory_invariant_witness :
  exists b o s,
    Some "chrome" = Some b
    /\ In b WebDriverFactory.__SUPPORTED_BROWSERS
    /\ options_class o = b
    /\ service_class s = b
    /\ WebDriverFactory.__service Sample.chrome_factory = Some s
    /\ WebDriverFactory.get_webdriver Sample.chrome_factory
       = Some (Local b (Some o) (Some s))
    /\ WebDriverFactory.__browser Sample.chrome_factory = Some "chrome"
    /\ WebDriverFactory.__remote Sample.chrome_factory = false
    /\ WebDriverFactory.__grid_url Sample.chrome_factory = None.
Proof.
  exact (@constructed_factory_invariant
           Sample.linux (Some "chrome") false None None
           Sample.chrome_factory _ eq_refl).
Defined.

Lemma set_webdriver_sessions self w b :
  WebDriverFactory.__browser self = Some b ->
  In b WebDriverFactory.__SUPPORTED_BROWSERS ->
  length (sessions (events (WebDriverFactory.__set_webdriver self) w)) <= 1.
Proof.
  intros Hb Hin. unfold events.
  pose proof (init_service_quiet self w) as Hq. unfold sessions in *.
  destruct (WebDriverFactory.__remote self
            && truthy_str (WebDriverFactory.__grid_url self)) eqn:Hremote.
  - rewrite (set_webdriver_remote_run self w Hremote).
    destruct (result (WebDriverFactory.__get_options self) w);
      [simpl; lia |].
    cbv zeta.
    destruct (result (WebDriverFactory.__init_service self) w);
      [simpl; rewrite Hq; simpl; lia |].
    destruct (remote_session w _ _); simpl;
      rewrite filter_app, Hq; simpl; lia.
  - rewrite (set_webdriver_local_run self w Hremote Hb Hin).
    destruct (result (WebDriverFactory.__get_options self) w);
      [simpl; lia |].
    cbv zeta.
    destruct (result (WebDriverFactory.__init_service self) w);
      [simpl; rewrite Hq; simpl; lia |].
    destruct (local_session w _ _ _); simpl;
      rewrite filter_app, Hq; simpl; lia.
Qed.

(** X15.  No construction, whether it succeeds or fails, makes more than
    one session-creating call. *)
Theorem at_most_one_session_call
        w browser remote grid_url test_config_path :
  length (sessions
            (events (WebDriverFactory.__init__
                       browser remote grid_url test_config_path) w))
  <= 1.
Proof.
  unfold events. rewrite init_run.
  pose proof (resolve_config_quiet
                (WebDriverFactory.mk browser remote grid_url None None
                                     (JObj []))
                test_config_path w) as [Hquiet _].
  unfold events in Hquiet.
  destruct (run (WebDriverFactory.resolve_config _ test_config_path) w)
    as [[e | cfg] t0] eqn:Hcfg; cbn [snd] in Hquiet |- *;
    [rewrite Hquiet; simpl; lia |].
  destruct (String.eqb (platform_system w) "Windows"
            && WebDriverFactory.str_eq browser "safari");
    [cbn [snd]; rewrite Hquiet; simpl; lia |].
  destruct (WebDriverFactory.str_in
              browser WebDriverFactory.__SUPPORTED_BROWSERS) eqn:Hin;
    cbn [snd negb]; [| rewrite Hquiet; simpl; lia].
  apply str_in_true in Hin as (b & -> & Hin).
  destruct (@resolve_config_result
              (WebDriverFactory.mk (Some b) remote grid_url None None
                                   (JObj []))
              test_config_path w cfg) as [data ->];
    [unfold result; rewrite Hcfg; reflexivity |].
  unfold sessions in Hquiet |- *. rewrite filter_app, Hquiet.
  cbn [app].
  apply (@set_webdriver_sessions _ w b); [reflexivity | exact Hin].
Qed.

Lemma managed_checks w b :
  In b ["chrome"; "firefox"; "edge"] ->
  String.eqb (platform_system w) "Windows"
  && WebDriverFactory.str_eq (Some b) "safari" = false
  /\ WebDriverFactory.str_in (Some b) WebDriverFactory.__SUPPORTED_BROWSERS
     = true.
Proof.
  simpl. intros [<- | [<- | [<- | []]]];
    (split; [apply andb_false_r | reflexivity]).
Qed.

(** X16.  Construction with no configuration file, for a browser whose
    driver is downloaded, on any host where the download and the browser
    start succeed: the constructor returns a factory holding one local
    session of that browser, started with the untouched default options and
    with the service built on the downloaded driver, after exactly three
    outside calls. *)
Theorem local_construction_succeeds
        w b remote grid_url test_config_path path :
  truthy_str test_config_path = false ->
  remote && truthy_str grid_url = false ->
  In b ["chrome"; "firefox"; "edge"] ->
  driver_manager_install w b = inr path ->
  local_session w b (Some (WebDriverFactory.new_options w b))
                (Some (mkService b (Some path))) = None ->
  let options := Some (WebDriverFactory.new_options w b) in
  let service := Some (mkService b (Some path)) in
  run (WebDriverFactory.__init__ (Some b) remote grid_url test_config_path) w
  = (inr (WebDriverFactory.mk (Some b) remote grid_url
                              (Some (Local b options service)) service
                              (JObj [])),
     [DriverManagerInstall b; NewService b; NewLocal b options service]).
Proof.
  intros Hpath Hlocal Hin Hinstall Hstart options service.
  destruct (managed_supported Hin) as (Hsup & _ & _).
  destruct (managed_checks w Hin) as [Hplatform Hname].
  rewrite init_run, (resolve_config_no_path _ _ w Hpath).
  rewrite Hplatform, Hname. cbn [negb app].
  set (self := WebDriverFactory.mk (Some b) remote grid_url None None
                                   (JObj [])).
  unfold result, events.
  rewrite (set_webdriver_local_run self w Hlocal eq_refl Hsup).
  unfold result, events.
  rewrite (@get_options_iterated w self b [] []);
    try reflexivity; try assumption.
  cbn [fst]. rewrite (init_service_managed_run self w eq_refl Hin), Hinstall.
  cbn [fst snd WebDriverFactory.__service WebDriverFactory.set_service].
  unfold set_all, WebDriverFactory.new_options in *. simpl fold_left.
  rewrite Hstart. reflexivity.
Qed.

Lemma local_construction_succeeds_witness :
  run (WebDriverFactory.__init__ (Some "firefox") true (Some "") None)
      Sample.selenium
  = (inr (WebDriverFactory.mk
            (Some "firefox") true (Some "")
            (Some (Local "firefox"
                         (Some (mkOptions "firefox" []
                                          (Sample.w3c_defaults "firefox")))
                         (Some (mkService "firefox" (Some "/wdm/firefox")))))
            (Some (mkService "firefox" (Some "/wdm/firefox")))
            (JObj [])),
     [DriverManagerInstall "firefox"; NewService "firefox";
      NewLocal "firefox"
               (Some (mkOptions "firefox" [] (Sample.w3c_defaults "firefox")))
               (Some (mkService "firefox" (Some "/wdm/firefox")))]).
Proof.
  exact (@local_construction_succeeds
           Sample.selenium "firefox" true (Some "") None "/wdm/firefox"
           eq_refl eq_refl ltac:(simpl; tauto) eq_refl eq_refl).
Defined.

(** X17.  Construction of a remote session from a configuration file, for
    a browser whose driver is downloaded: when the file loads to a document
    whose section for the browser is a mapping with a list of non-empty
    launch arguments, and the download and the grid succeed, the session
    requested from the grid carries exactly those arguments and the section's
    items as capabilities over the defaults; the factory keeps the section as
    its configuration data.  The outside calls are, in order: open the file,
    download the driver, build the service, request the session. *)
Theorem remote_construction_from_config
        w b url path doc bs d l driver :
  path <> "" ->
  url <> "" ->
  In b ["chrome"; "firefox"; "edge"] ->
  open_json_load w path = inr (JObj doc) ->
  lookup "browsers" doc = Some (JObj bs) ->
  lookup b bs = Some (JObj d) ->
  dict_get "args" (JList []) d = JList l ->
  forallb truthy l = true ->
  driver_manager_install w b = inr driver ->
  let options :=
    Some (mkOptions b l (set_all d (default_capabilities w b))) in
  remote_session w (Some url) options = None ->
  run (WebDriverFactory.__init__ (Some b) true (Some url) (Some path)) w
  = (inr (WebDriverFactory.mk (Some b) true (Some url)
                              (Some (Remote (Some url) options))
                              (Some (mkService b (Some driver)))
                              (JObj d)),
     [Open path; DriverManagerInstall b; NewService b;
      NewRemote (Some url) options]).
Proof.
  intros Hpath Hurl Hin Hopen Hbs Hsec Hargs Hl Hinstall options Hgrid.
  destruct (managed_supported Hin) as (Hsup & _ & Hne).
  destruct (managed_checks w Hin) as [Hplatform Hname].
  rewrite init_run.
  rewrite (@resolve_config_loaded
             (WebDriverFactory.mk (Some b) true (Some url) None None
                                  (JObj []))
             (Some path) w doc bs b
             (truthy_str_Some Hpath) Hopen Hbs eq_refl Hne).
  rewrite Hplatform, Hname. cbn [negb].
  unfold dict_get at 1 2. rewrite Hsec.
  set (self := WebDriverFactory.set_config_data _ (JObj d)).
  assert (Hremote : WebDriverFactory.__remote self
                    && truthy_str (WebDriverFactory.__grid_url self) = true)
    by exact (truthy_str_Some Hurl).
  unfold result, events.
  rewrite (set_webdriver_remote_run self w Hremote).
  unfold result, events.
  rewrite (@get_options_iterated w self b d l);
    try reflexivity; try assumption; [| rewrite Hargs; reflexivity].
  cbn [fst]. cbv zeta.
  rewrite (init_service_managed_run self w eq_refl Hin), Hinstall.
  cbn [fst snd WebDriverFactory.__grid_url self].
  fold options. simpl WebDriverFactory.__grid_url. rewrite Hgrid.
  reflexivity.
Qed.

Lemma remote_construction_from_config_witness :
  run (WebDriverFactory.__init__ (Some "chrome") true
                                 (Some "http://grid:4444") (Some "env.json"))
      Sample.selenium
  = (inr (WebDriverFactory.mk
            (Some "chrome") true (Some "http://grid:4444")
            (Some (Remote
                     (Some "http://grid:4444")
                     (Some (mkOptions
                              "chrome"
                              [JStr "--headless"; JStr "--no-sandbox"]
                              [("browserName", JStr "chrome");
                               ("pageLoadStrategy", JStr "eager");
                               ("args", JList [JStr "--headless";
                                               JStr "--no-sandbox"])]))))
            (Some (mkService "chrome" (Some "/wdm/chrome")))
            (JObj Sample.headless_eager)),
     [Open "env.json"; DriverManagerInstall "chrome"; NewService "chrome";
      NewRemote (Some "http://grid:4444")
                (Some (mkOptions
                         "chrome"
                         [JStr "--headless"; JStr "--no-sandbox"]
                         [("browserName", JStr "chrome");
                          ("pageLoadStrategy", JStr "eager");
                          ("args", JList [JStr "--headless";
                                          JStr "--no-sandbox"])]))]).
Proof.
  exact (@remote_construction_from_config
           Sample.selenium "chrome" "http://grid:4444" "env.json"
           Sample.document_items [("chrome", JObj Sample.headless_eager)]
           Sample.headless_eager [JStr "--headless"; JStr "--no-sandbox"]
           "/wdm/chrome"
           ltac:(discriminate) ltac:(discriminate) ltac:(simpl; tauto)
           eq_refl eq_refl eq_refl eq_refl eq_refl eq_refl eq_refl).
Defined.

(** ** Release and assertions in sequence *)

(** X18.  [__exit__] on a factory without a session handle returns without
    calling anything (where [quit_webdriver] would raise); with a handle it
    makes exactly one shutdown call and raises the termination error when
    that call raises. *)
Theorem exit_releases_session w self :
  (WebDriverFactory.__driver self = None ->
   run (WebDriverFactory.__exit__ self) w = (inr tt, []))
  /\ (forall d,
        WebDriverFactory.__driver self = Some d ->
        run (WebDriverFactory.__exit__ self) w
        = (match driver_quit w d with
           | Some e => inl (WebDriverFactory.closing_error e)
           | None => inr tt
           end,
           [Quit d])).
Proof.
  unfold run, WebDriverFactory.__exit__. split.
  - intros ->. reflexivity.
  - intros d Hd. rewrite Hd.
    unfold WebDriverFactory.quit_webdriver, try_except, call. rewrite Hd.
    destruct (driver_quit w d); reflexivity.
Qed.

Lemma exit_releases_session_witness :
  run (WebDriverFactory.__exit__ Sample.no_session_factory) Sample.stuck
  = (inr tt, [])
  /\ run (WebDriverFactory.__exit__ Sample.chrome_factory) Sample.stuck
     = (inl (WebDriverFactory.closing_error Sample.invalid_session),
        [Quit Sample.chrome_driver]).
Proof.
  split.
  - exact (proj1 (exit_releases_session Sample.stuck
                                        Sample.no_session_factory) eq_refl).
  - exact (proj2 (exit_releases_session Sample.stuck Sample.chrome_factory)
                 Sample.chrome_driver eq_refl).
Defined.

(** X20.  A sequence of soft assertions never raises: every one of them
    runs, and the failures logged are exactly the messages of the false
    conditions, in the order of the sequence. *)
Theorem soft_asserts_log_every_failure
        w t (checks : list (bool * string)) :
  for_in checks
         (fun c (_ : unit) => Assertion.soft_assert (fst c) (snd c)) tt w t
  = (inr tt,
     (t ++ map (fun c => LogFailure (snd c))
               (filter (fun c => negb (fst c)) checks))%list).
Proof.
  revert t. induction checks as [| [condition msg] checks IH]; intros t.
  - simpl. rewrite app_nil_r. reflexivity.
  - simpl for_in. unfold bind at 1.
    destruct condition; simpl.
    + apply IH.
    + rewrite IH, <- app_assoc. reflexivity.
Qed.

(** X21.  A sequence of hard assertions stops at the first false condition:
    it raises [AssertionError] with that assertion's message, or returns when
    every condition is true; nothing is logged either way. *)
Theorem hard_asserts_stop_at_first_failure
        w t (checks : list (bool * string)) :
  for_in checks
         (fun c (_ : unit) => Assertion.hard_assert (fst c) (snd c)) tt w t
  = (match find (fun c => negb (fst c)) checks with
     | Some c => inl (Exn AssertionError (snd c) None)
     | None => inr tt
     end,
     t).
Proof.
  induction checks as [| [condition msg] checks IH].
  - reflexivity.
  - simpl for_in. unfold bind at 1.
    destruct condition; simpl; [exact IH | reflexivity].
Qed.

(** X19.  [quit_webdriver] returns normally exactly when the factory holds
    a session handle and the shutdown call on it returns; it has then made
    that one call and no other. *)
Theorem quit_webdriver_success w self tr :
  run (WebDriverFactory.quit_webdriver self) w = (inr tt, tr) <->
  exists d,
    WebDriverFactory.__driver self = Some d
    /\ driver_quit w d = None
    /\ tr = [Quit d].
Proof.
  unfold run, WebDriverFactory.quit_webdriver, try_except, call.
  destruct (WebDriverFactory.__driver self) as [d |]; simpl.
  - destruct (driver_quit w d) as [e |] eqn:Hq; simpl; split.
    + discriminate.
    + intros (d' & Hd & Hq' & _). injection Hd as <-. congruence.
    + intros [= <-]. exists d. repeat split. exact Hq.
    + intros (d' & Hd & _ & ->). injection Hd as <-. reflexivity.
  - split; [discriminate | intros (d & Hd & _); discriminate].
Qed.
